(** * Locus backend: the itinerary stream emitter of [backend/main.py]

    A shallow embedding of [ai_stream_generator] and [plan_trip] together
    with the fragment of Python they rely on: [str] values as sequences of
    Unicode code points, the value universe of [json.dumps], the encoder
    itself with its default settings ([ensure_ascii=True], separators
    [", "] and [": "], no indentation), f-string formatting, and an
    asynchronous generator as a computation that leaves a trace of
    [yield]s and [asyncio.sleep]s. *)

From Stdlib Require Import List String Ascii ZArith NArith QArith Lia Bool.
From Stdlib Require Import DecimalString Sorted.
Import ListNotations.

Local Open Scope N_scope.

(** ** Python strings *)

(** A Python [str] is a sequence of code points. *)
Definition pystr := list N.

(** The source file is UTF-8; a string literal denotes the code points that
    its bytes decode to.  Bytes that do not form a well-formed sequence are
    decoded as U+FFFD (no literal of the program contains any). *)
Fixpoint utf8_decode (bs : list N) : pystr :=
  match bs with
  | [] => []
  | b0 :: r0 =>
    if b0 <? 0x80 then b0 :: utf8_decode r0
    else if (0xC0 <=? b0) && (b0 <? 0xE0) then
      match r0 with
      | b1 :: r1 =>
        (N.land b0 0x1F * 64 + N.land b1 0x3F) :: utf8_decode r1
      | _ => [0xFFFD]
      end
    else if (0xE0 <=? b0) && (b0 <? 0xF0) then
      match r0 with
      | b1 :: b2 :: r2 =>
        ((N.land b0 0x0F * 64 + N.land b1 0x3F) * 64 + N.land b2 0x3F)
          :: utf8_decode r2
      | _ => [0xFFFD]
      end
    else if (0xF0 <=? b0) && (b0 <? 0xF8) then
      match r0 with
      | b1 :: b2 :: b3 :: r3 =>
        (((N.land b0 0x07 * 64 + N.land b1 0x3F) * 64 + N.land b2 0x3F) * 64
         + N.land b3 0x3F) :: utf8_decode r3
      | _ => [0xFFFD]
      end
    else 0xFFFD :: utf8_decode r0
  end.

Definition bytes_of_string (s : string) : list N :=
  map N_of_ascii (list_ascii_of_string s).

(** [u "..."] is the Python literal ["..."]. *)
Definition u (s : string) : pystr := utf8_decode (bytes_of_string s).

(** [q "..."] is [u "..."] with each apostrophe read as a double quote: a
    way to write JSON text in this file. *)
Definition q (s : string) : pystr :=
  map (fun c => if c =? 39 then 34 else c) (u s).

(** [sep.join(parts)] *)
Fixpoint join (sep : pystr) (parts : list pystr) : pystr :=
  match parts with
  | [] => []
  | [p] => p
  | p :: ps => p ++ sep ++ join sep ps
  end.

Fixpoint pystr_eqb (a b : pystr) : bool :=
  match a, b with
  | [], [] => true
  | x :: a', y :: b' => (x =? y) && pystr_eqb a' b'
  | _, _ => false
  end.

(** ** Numbers *)

(** [int.__repr__]: decimal digits with a leading minus sign for negatives. *)
Definition int_repr (n : Z) : pystr :=
  bytes_of_string (NilZero.string_of_int (Z.to_int n)).

(** The digits of a natural number, most significant first. *)
Definition digits_of (n : N) : pystr :=
  bytes_of_string (NilZero.string_of_uint (N.to_uint n)).

(** A finite [float] is identified with the shortest decimal that reads back
    as it, [fmant * 10 ^ fexp]: the decimal [float.__repr__] prints.  A
    literal of at most 15 significant digits denotes the float whose
    shortest decimal is the literal without its trailing zeros, which is
    the case of every float literal of the program. *)
Record pyfloat := { fmant : Z; fexp : Z }.

Fixpoint strip_zeros (fuel : nat) (m e : Z) : pyfloat :=
  match fuel with
  | O => {| fmant := m; fexp := e |}
  | S fuel' =>
    if (m =? 0)%Z then {| fmant := 0; fexp := 0 |}
    else if (m mod 10 =? 0)%Z then strip_zeros fuel' (m / 10)%Z (e + 1)%Z
    else {| fmant := m; fexp := e |}
  end.

(** The float written [m]e[e], e.g. [float_lit 357719 (-4)] for [35.7719]. *)
Definition float_lit (m e : Z) : pyfloat :=
  strip_zeros (S (Z.to_nat (Z.log2 (Z.abs m)))) m e.

Definition zeros (n : Z) : pystr := repeat 48 (Z.to_nat n).

(** [float.__repr__] (format code ['r']): positional notation when the
    decimal point falls in [-4 < decpt <= 16], exponent notation with at
    least two exponent digits otherwise. *)
Definition float_repr (x : pyfloat) : pystr :=
  let sign := if (fmant x <? 0)%Z then u "-" else [] in
  let ds := digits_of (Z.to_N (Z.abs (fmant x))) in
  let n := Z.of_nat (List.length ds) in
  let decpt := (n + fexp x)%Z in
  if (fmant x =? 0)%Z then u "0.0"
  else if ((-4 <? decpt) && (decpt <=? 16))%Z then
    if (decpt <=? 0)%Z then
      sign ++ u "0." ++ zeros (- decpt) ++ ds
    else if (n <=? decpt)%Z then
      sign ++ ds ++ zeros (decpt - n) ++ u ".0"
    else
      sign ++ firstn (Z.to_nat decpt) ds ++ u "." ++ skipn (Z.to_nat decpt) ds
  else
    let ex := (decpt - 1)%Z in
    let exd := digits_of (Z.to_N (Z.abs ex)) in
    sign ++ firstn 1 ds
         ++ (if (1 <? n)%Z then u "." ++ skipn 1 ds else [])
         ++ u "e" ++ (if (ex <? 0)%Z then u "-" else u "+")
         ++ (if (Z.abs ex <? 10)%Z then u "0" else []) ++ exd.

(** ** Values *)

(** The values [json.dumps] accepts; a [dict] keeps its items in insertion
    order and its keys are strings. *)
#[warnings="-register-all"]
Inductive pyval : Type :=
| PyNone
| PyBool (b : bool)
| PyInt (n : Z)
| PyFloat (x : pyfloat)
| PyStr (s : pystr)
| PyList (xs : list pyval)
| PyDict (items : list (pystr * pyval)).

(** [d[k]] on the items of a dict. *)
Fixpoint items_get (k : pystr) (items : list (pystr * pyval)) : option pyval :=
  match items with
  | [] => None
  | (k', v) :: rest => if pystr_eqb k k' then Some v else items_get k rest
  end.

(** [d[k] = v] on the items of a dict: an existing key keeps its place. *)
Fixpoint items_set (k : pystr) (v : pyval) (items : list (pystr * pyval))
  : list (pystr * pyval) :=
  match items with
  | [] => [(k, v)]
  | (k', v') :: rest =>
    if pystr_eqb k k' then (k, v) :: rest else (k', v') :: items_set k v rest
  end.

Definition dict_get (k : pystr) (d : pyval) : option pyval :=
  match d with
  | PyDict items => items_get k items
  | _ => None
  end.

Definition dict_keys (d : pyval) : list pystr :=
  match d with
  | PyDict items => map fst items
  | _ => []
  end.

(** ** [json.dumps] *)

Definition hex_digit (n : N) : N :=
  if n <? 10 then 48 + n else 87 + n.

(** ['{0:04x}'.format(n)] for [n < 0x10000] *)
Definition hex4 (n : N) : pystr :=
  [ hex_digit (N.shiftr n 12 mod 16); hex_digit (N.shiftr n 8 mod 16);
    hex_digit (N.shiftr n 4 mod 16); hex_digit (n mod 16) ].

(** The replacement of one character by [py_encode_basestring_ascii]:
    everything outside [' '..'~'], the quote and the backslash are escaped;
    code points above the BMP become a surrogate pair.  (34 is the quote,
    92 the backslash; a backslash inside a literal below stands for
    itself.) *)
Definition escape_char (c : N) : pystr :=
  if c =? 34 then [92; 34]
  else if c =? 92 then [92; 92]
  else if c =? 10 then u "\n"
  else if c =? 13 then u "\r"
  else if c =? 9 then u "\t"
  else if c =? 12 then u "\f"
  else if c =? 8 then u "\b"
  else if (32 <=? c) && (c <=? 126) then [c]
  else if c <? 0x10000 then u "\u" ++ hex4 c
  else
    let n := c - 0x10000 in
    let s1 := N.lor 0xD800 (N.land (N.shiftr n 10) 0x3FF) in
    let s2 := N.lor 0xDC00 (N.land n 0x3FF) in
    u "\u" ++ hex4 s1 ++ u "\u" ++ hex4 s2.

Definition encode_basestring_ascii (s : pystr) : pystr :=
  [34] ++ flat_map escape_char s ++ [34].

Fixpoint json_dumps (v : pyval) : pystr :=
  match v with
  | PyNone => u "null"
  | PyBool true => u "true"
  | PyBool false => u "false"
  | PyInt n => int_repr n
  | PyFloat x => float_repr x
  | PyStr s => encode_basestring_ascii s
  | PyList xs => u "[" ++ join (u ", ") (map json_dumps xs) ++ u "]"
  | PyDict items =>
    u "{" ++
      join (u ", ")
        (map (fun kv => encode_basestring_ascii (fst kv) ++ u ": "
                        ++ json_dumps (snd kv)) items)
      ++ u "}"
  end.

(** ** Asynchronous generators *)

(** What a consumer of the generator observes: the chunks it is handed, and
    the suspensions [await asyncio.sleep(delay)] between them. *)
Inductive action : Type :=
| Yield (chunk : pystr)
| Sleep (delay : pyval).

Inductive exn : Type :=
| KeyError (key : pystr)
| TypeError
| UnboundLocalError
| NotModelled.

(** The local variables of the generator that are assigned and read again;
    a variable is unbound until its first assignment. *)
Record frame := { current_locations : option (list pyval) }.

Inductive outcome (A : Type) : Type :=
| Done (a : A) (f : frame)
| Raised (e : exn).
Arguments Done {A} a f.
Arguments Raised {A} e.

(** A piece of generator code: started on a frame, it leaves a trace and
    either completes with a value and a frame or raises. *)
Definition Gen (A : Type) : Type := frame -> list action * outcome A.

Definition ret {A} (a : A) : Gen A := fun f => ([], Done a f).

Definition bind {A B} (m : Gen A) (k : A -> Gen B) : Gen B := fun f =>
  match m f with
  | (t, Done a f') => let (t', r) := k a f' in (t ++ t', r)
  | (t, Raised e) => (t, Raised e)
  end.

Definition raise {A} (e : exn) : Gen A := fun _ => ([], Raised e).

Definition yield (chunk : pystr) : Gen unit :=
  fun f => ([Yield chunk], Done tt f).

(** [await asyncio.sleep(delay)] *)
Definition sleep (delay : pyval) : Gen unit :=
  fun f => ([Sleep delay], Done tt f).

Declare Scope gen_scope.
Delimit Scope gen_scope with gen.
Notation "x <- m ;; k" := (bind m (fun x => k))
  (at level 61, m at next level, right associativity) : gen_scope.
Notation "m ;; k" := (bind m (fun _ => k))
  (at level 61, right associativity) : gen_scope.
Local Open Scope gen_scope.

(** [for x in xs: body] over the elements already taken from the iterable *)
Fixpoint for_in {A} (xs : list A) (body : A -> Gen unit) : Gen unit :=
  match xs with
  | [] => ret tt
  | x :: xs' => body x ;; for_in xs' body
  end.

(** The elements [iter(v)] goes through: those of a list, the characters of
    a string, the keys of a dict. *)
Definition iter (v : pyval) : Gen (list pyval) :=
  match v with
  | PyList xs => ret xs
  | PyStr s => ret (map (fun c => PyStr [c]) s)
  | PyDict items => ret (map (fun kv => PyStr (fst kv)) items)
  | _ => raise TypeError
  end.

(** [v[k]] for a string key [k] *)
Definition getitem (v : pyval) (k : pystr) : Gen pyval :=
  match v with
  | PyDict items =>
    match items_get k items with
    | Some x => ret x
    | None => raise (KeyError k)
    end
  | _ => raise TypeError
  end.

(** A replacement field [{v}] of an f-string, that is [str(v)].  The text
    of a container is its [repr], which is outside this model. *)
Definition format_value (v : pyval) : Gen pystr :=
  match v with
  | PyNone => ret (u "None")
  | PyBool true => ret (u "True")
  | PyBool false => ret (u "False")
  | PyInt n => ret (int_repr n)
  | PyFloat x => ret (float_repr x)
  | PyStr s => ret s
  | PyList _ | PyDict _ => raise NotModelled
  end.

(** [current_locations = []] *)
Definition new_current_locations : Gen unit :=
  fun _ => ([], Done tt {| current_locations := Some [] |}).

(** [current_locations.append(loc)] *)
Definition append_current_locations (loc : pyval) : Gen unit :=
  fun f =>
    match current_locations f with
    | Some ls => ([], Done tt {| current_locations := Some (ls ++ [loc]) |})
    | None => ([], Raised UnboundLocalError)
    end.

(** Running a generator to exhaustion from a fresh frame. *)
Definition run {A} (g : Gen A) : list action * outcome A :=
  g {| current_locations := None |}.

Definition emitted {A} (g : Gen A) : list action := fst (run g).

Fixpoint yields (t : list action) : list pystr :=
  match t with
  | [] => []
  | Yield c :: t' => c :: yields t'
  | Sleep _ :: t' => yields t'
  end.

Fixpoint sleeps (t : list action) : list pyval :=
  match t with
  | [] => []
  | Yield _ :: t' => sleeps t'
  | Sleep d :: t' => d :: sleeps t'
  end.

(** ** The program *)

(** The newline of the Python literal written backslash-n. *)
Definition NL : pystr := [10].

(** The classes of the data model. *)
Record Location := {
  name : pystr;
  lat : pyfloat;
  lng : pyfloat;
  description : pystr
}.

Record DayPlan := {
  day : Z;
  locations : list Location;
  summary : pystr
}.

(** The baked itinerary; [float_lit 357719 (-4)] is the literal [35.7719]. *)
Definition MOCK_TOKYO_TRIP : pyval :=
  PyList [
    PyDict [
      (u "day", PyInt 1);
      (u "summary", PyStr (u "抵達東京，探索淺草文化"));
      (u "locations", PyList [
        PyDict [ (u "name", PyStr (u "成田機場"));
                        (u "lat", PyFloat (float_lit 357719 (-4)));
                        (u "lng", PyFloat (float_lit 1403929 (-4)));
                        (u "description", PyStr (u "抵達日本")) ];
        PyDict [ (u "name", PyStr (u "淺草寺"));
                        (u "lat", PyFloat (float_lit 357147 (-4)));
                        (u "lng", PyFloat (float_lit 1397967 (-4)));
                        (u "description", PyStr (u "東京最古老的寺廟，雷門打卡")) ];
        PyDict [ (u "name", PyStr (u "晴空塔"));
                        (u "lat", PyFloat (float_lit 357100 (-4)));
                        (u "lng", PyFloat (float_lit 1398107 (-4)));
                        (u "description", PyStr (u "俯瞰東京夜景")) ] ])
    ];
    PyDict [
      (u "day", PyInt 2);
      (u "summary", PyStr (u "潮流與購物的一天"));
      (u "locations", PyList [
        PyDict [ (u "name", PyStr (u "澀谷十字路口"));
                        (u "lat", PyFloat (float_lit 356594 (-4)));
                        (u "lng", PyFloat (float_lit 1397005 (-4)));
                        (u "description", PyStr (u "世界上最繁忙的十字路口")) ];
        PyDict [ (u "name", PyStr (u "明治神宮"));
                        (u "lat", PyFloat (float_lit 356763 (-4)));
                        (u "lng", PyFloat (float_lit 1396993 (-4)));
                        (u "description", PyStr (u "市中心的森林綠洲")) ];
        PyDict [ (u "name", PyStr (u "新宿御苑"));
                        (u "lat", PyFloat (float_lit 356851 (-4)));
                        (u "lng", PyFloat (float_lit 1397100 (-4)));
                        (u "description", PyStr (u "著名的賞櫻勝地")) ] ])
    ]
  ].

(** The body of the loop over the locations of a day (lines 94 to 104). *)
Definition location_step (day_plan loc : pyval) : Gen unit :=
  sleep (PyFloat (float_lit 8 (-1))) ;;
  append_current_locations loc ;;
  d <- getitem day_plan (u "day") ;;
  s <- getitem day_plan (u "summary") ;;
  let chunk := PyDict [ (u "type", PyStr (u "data"));
                        (u "day", d);
                        (u "location", loc);
                        (u "summary", s) ] in
  yield (json_dumps chunk ++ NL).

(** The body of the loop over the days (lines 89 to 104). *)
Definition day_step (day_plan : pyval) : Gen unit :=
  d <- getitem day_plan (u "day") ;;
  d_text <- format_value d ;;
  s <- getitem day_plan (u "summary") ;;
  s_text <- format_value s ;;
  yield (json_dumps (PyDict [
           (u "type", PyStr (u "status"));
           (u "content",
            PyStr (u "正在規劃第 " ++ d_text ++ u " 天：" ++ s_text)) ])
         ++ NL) ;;
  new_current_locations ;;
  ls <- getitem day_plan (u "locations") ;;
  locs <- iter ls ;;
  for_in locs (location_step day_plan).

(** The body of [ai_stream_generator], with the module global it iterates
    over as the parameter [itinerary]. *)
Definition ai_stream_generator_body (itinerary : pyval) (prompt : pystr)
  : Gen unit :=
  yield (json_dumps (PyDict [ (u "type", PyStr (u "status"));
                              (u "content", PyStr (u "正在分析您的旅遊需求...")) ])
         ++ NL) ;;
  sleep (PyInt 1) ;;
  yield (json_dumps (PyDict [ (u "type", PyStr (u "status"));
                              (u "content", PyStr (u "正在搜尋東京熱門景點...")) ])
         ++ NL) ;;
  sleep (PyInt 1) ;;
  yield (json_dumps (PyDict [
           (u "type", PyStr (u "control"));
           (u "action", PyStr (u "fly_to"));
           (u "data", PyDict [ (u "lat", PyFloat (float_lit 356895 (-4)));
                               (u "lng", PyFloat (float_lit 1396917 (-4)));
                               (u "zoom", PyInt 10) ]) ])
         ++ NL) ;;
  sleep (PyFloat (float_lit 15 (-1))) ;;
  day_plans <- iter itinerary ;;
  for_in day_plans day_step ;;
  yield (json_dumps (PyDict [ (u "type", PyStr (u "status"));
                              (u "content", PyStr (u "行程規劃完成！")) ])
         ++ NL).

Definition ai_stream_generator (prompt : pystr) : Gen unit :=
  ai_stream_generator_body MOCK_TOKYO_TRIP prompt.

(** [StreamingResponse(content, media_type=...)] *)
Record StreamingResponse := {
  body_iterator : Gen unit;
  media_type : pystr
}.

(** [POST /api/plan] *)
Definition plan_trip (prompt : pystr) : StreamingResponse :=
  {| body_iterator := ai_stream_generator prompt;
     media_type := u "application/x-ndjson" |}.

(** The body a client receives when it reads the response to its end: the
    chunks of the iterator one after the other (they are ASCII, so their
    UTF-8 encoding has one byte per character). *)
Definition response_body (r : StreamingResponse) : pystr :=
  List.concat (yields (emitted (body_iterator r))).

(** ** Reading the stream back *)

(** The reader a client applies to each line: [json.loads] in its default
    (strict) mode, following the JSON grammar of RFC 8259.  A text is valid
    JSON when this reader returns a value. *)

Definition is_ws (c : N) : bool :=
  (c =? 32) || (c =? 9) || (c =? 10) || (c =? 13).

Fixpoint skip_ws (s : pystr) : pystr :=
  match s with
  | c :: r => if is_ws c then skip_ws r else s
  | [] => []
  end.

Definition is_digit (c : N) : bool := (48 <=? c) && (c <=? 57).

Definition hex_value (c : N) : option N :=
  if is_digit c then Some (c - 48)
  else if (97 <=? c) && (c <=? 102) then Some (c - 87)
  else if (65 <=? c) && (c <=? 70) then Some (c - 55)
  else None.

Definition hex4_value (a b c d : N) : option N :=
  match hex_value a, hex_value b, hex_value c, hex_value d with
  | Some x, Some y, Some z, Some w => Some (((x * 16 + y) * 16 + z) * 16 + w)
  | _, _, _, _ => None
  end.

(** The character a one-letter escape stands for. *)
Definition unescape (e : N) : option N :=
  if e =? 34 then Some 34
  else if e =? 92 then Some 92
  else if e =? 47 then Some 47
  else if e =? 98 then Some 8
  else if e =? 102 then Some 12
  else if e =? 110 then Some 10
  else if e =? 114 then Some 13
  else if e =? 116 then Some 9
  else None.

Definition is_high_surrogate (n : N) : bool := (0xD800 <=? n) && (n <=? 0xDBFF).
Definition is_low_surrogate (n : N) : bool := (0xDC00 <=? n) && (n <=? 0xDFFF).

(** The characters of a string after its opening quote, up to the closing
    one; [acc] holds the characters read so far, last first. *)
Fixpoint scan_string (s : pystr) (acc : pystr) : option (pystr * pystr) :=
  match s with
  | [] => None
  | c :: r =>
    if c =? 34 then Some (List.rev acc, r)
    else if c =? 92 then
      match r with
      | [] => None
      | e :: r1 =>
        if e =? 117 then
          match r1 with
          | h1 :: h2 :: h3 :: h4 :: r2 =>
            match hex4_value h1 h2 h3 h4 with
            | None => None
            | Some n =>
              match r2 with
              | b :: x :: l1 :: l2 :: l3 :: l4 :: r3 =>
                match hex4_value l1 l2 l3 l4 with
                | Some n2 =>
                  if is_high_surrogate n && (b =? 92) && (x =? 117)
                     && is_low_surrogate n2
                  then scan_string r3
                         (0x10000 + N.lor (N.shiftl (n - 0xD800) 10)
                                          (n2 - 0xDC00) :: acc)
                  else scan_string r2 (n :: acc)
                | None => scan_string r2 (n :: acc)
                end
              | _ => scan_string r2 (n :: acc)
              end
            end
          | _ => None
          end
        else
          match unescape e with
          | Some x => scan_string r1 (x :: acc)
          | None => None
          end
      end
    else if c <? 32 then None
    else scan_string r (c :: acc)
  end.

Fixpoint take_digits (s : pystr) : pystr * pystr :=
  match s with
  | c :: r =>
    if is_digit c then let (ds, r') := take_digits r in (c :: ds, r')
    else ([], s)
  | [] => ([], [])
  end.

Definition digits_value (ds : pystr) : Z :=
  fold_left (fun acc c => (acc * 10 + Z.of_N (c - 48))%Z) ds 0%Z.

(** A number: an optional minus sign, an integer part without superfluous
    leading zero, an optional fraction, an optional exponent.  It reads as
    an [int] when it has neither fraction nor exponent, as a [float]
    otherwise. *)
Definition scan_number (s : pystr) : option (pyval * pystr) :=
  let (neg, s1) := match s with
                   | c :: r => if c =? 45 then (true, r) else (false, s)
                   | [] => (false, s)
                   end in
  let (ip, s2) := match s1 with
                  | c :: r => if c =? 48 then ([48], r) else take_digits s1
                  | [] => ([], s1)
                  end in
  match ip with
  | [] => None
  | _ :: _ =>
    let (fp, s3) := match s2 with
                    | c :: r =>
                      if c =? 46 then
                        match take_digits r with
                        | ([], _) => ([], s2)
                        | (ds, r') => (ds, r')
                        end
                      else ([], s2)
                    | [] => ([], s2)
                    end in
    let '(ex, s4) :=
      match s3 with
      | c :: r =>
        if (c =? 101) || (c =? 69) then
          let (eneg, r1) := match r with
                            | sg :: r' =>
                              if sg =? 45 then (true, r')
                              else if sg =? 43 then (false, r')
                              else (false, r)
                            | [] => (false, r)
                            end in
          match take_digits r1 with
          | ([], _) => (None, s3)
          | (ds, r') =>
            (Some (if eneg then (- digits_value ds)%Z else digits_value ds), r')
          end
        else (None, s3)
      | [] => (None, s3)
      end in
    let sign := fun z : Z => if neg then (- z)%Z else z in
    match fp, ex with
    | [], None => Some (PyInt (sign (digits_value ip)), s4)
    | _, _ =>
      let e := match ex with Some e => e | None => 0%Z end in
      Some (PyFloat (float_lit (sign (digits_value (ip ++ fp)))
                               (e - Z.of_nat (List.length fp))), s4)
    end
  end.

Definition starts_with (p s : pystr) : option pystr :=
  if pystr_eqb p (firstn (List.length p) s)
  then Some (skipn (List.length p) s) else None.

(** One JSON value at the head of [s], and the text after it.  The members
    of an object are stored as a dict stores them: a repeated key keeps its
    place and takes the later value. *)
Fixpoint scan_value (fuel : nat) (s : pystr) : option (pyval * pystr) :=
  match fuel with
  | O => None
  | S fuel' =>
    match skip_ws s with
    | [] => None
    | c :: r =>
      if c =? 34 then
        match scan_string r [] with
        | Some (str, r') => Some (PyStr str, r')
        | None => None
        end
      else if c =? 123 then
        match skip_ws r with
        | c' :: r' =>
          if c' =? 125 then Some (PyDict [], r') else scan_members fuel' [] r
        | [] => None
        end
      else if c =? 91 then
        match skip_ws r with
        | c' :: r' =>
          if c' =? 93 then Some (PyList [], r') else scan_elements fuel' [] r
        | [] => None
        end
      else if c =? 110 then
        match starts_with (u "null") (c :: r) with
        | Some r' => Some (PyNone, r')
        | None => None
        end
      else if c =? 116 then
        match starts_with (u "true") (c :: r) with
        | Some r' => Some (PyBool true, r')
        | None => None
        end
      else if c =? 102 then
        match starts_with (u "false") (c :: r) with
        | Some r' => Some (PyBool false, r')
        | None => None
        end
      else scan_number (c :: r)
    end
  end
with scan_members (fuel : nat) (acc : list (pystr * pyval)) (s : pystr)
  : option (pyval * pystr) :=
  match fuel with
  | O => None
  | S fuel' =>
    match skip_ws s with
    | c :: r =>
      if c =? 34 then
        match scan_string r [] with
        | Some (k, r1) =>
          match skip_ws r1 with
          | c1 :: r2 =>
            if c1 =? 58 then
              match scan_value fuel' r2 with
              | Some (v, r3) =>
                match skip_ws r3 with
                | c3 :: r4 =>
                  if c3 =? 44 then scan_members fuel' (items_set k v acc) r4
                  else if c3 =? 125 then Some (PyDict (items_set k v acc), r4)
                  else None
                | [] => None
                end
              | None => None
              end
            else None
          | [] => None
          end
        | None => None
        end
      else None
    | [] => None
    end
  end
with scan_elements (fuel : nat) (acc : list pyval) (s : pystr)
  : option (pyval * pystr) :=
  match fuel with
  | O => None
  | S fuel' =>
    match scan_value fuel' s with
    | Some (v, r) =>
      match skip_ws r with
      | c :: r' =>
        if c =? 44 then scan_elements fuel' (acc ++ [v]) r'
        else if c =? 93 then Some (PyList (acc ++ [v]), r')
        else None
      | [] => None
      end
    | None => None
    end
  end.

(** [json.loads(s)]: one value, surrounded by white space only. *)
Definition json_loads (s : pystr) : option pyval :=
  match scan_value (S (List.length s)) s with
  | Some (v, r) => match skip_ws r with [] => Some v | _ :: _ => None end
  | None => None
  end.

(** The lines of a text, each with the newline that ends it
    ([str.splitlines(keepends=True)] on ASCII text without carriage
    returns). *)
Fixpoint split_lines_aux (s : pystr) (cur : pystr) : list pystr :=
  match s with
  | [] => match cur with [] => [] | _ :: _ => [List.rev cur] end
  | c :: r =>
    if c =? 10 then List.rev (c :: cur) :: split_lines_aux r []
    else split_lines_aux r (c :: cur)
  end.

Definition split_lines (s : pystr) : list pystr := split_lines_aux s [].

Definition generator_lines (prompt : pystr) : list pystr :=
  yields (emitted (ai_stream_generator prompt)).

(** Reading every line; [None] as soon as one line is not valid JSON. *)
Fixpoint read_stream (lines : list pystr) : option (list pyval) :=
  match lines with
  | [] => Some []
  | l :: ls =>
    match json_loads l, read_stream ls with
    | Some v, Some vs => Some (v :: vs)
    | _, _ => None
    end
  end.

Definition stream_events (prompt : pystr) : option (list pyval) :=
  read_stream (generator_lines prompt).

(** ** Events *)

Inductive kind : Type := Status | Control | Data.

Definition event_kind (ev : pyval) : option kind :=
  match dict_get (u "type") ev with
  | Some (PyStr t) =>
    if pystr_eqb t (u "status") then Some Status
    else if pystr_eqb t (u "control") then Some Control
    else if pystr_eqb t (u "data") then Some Data
    else None
  | _ => None
  end.

Definition is_data (ev : pyval) : bool :=
  match event_kind ev with Some Data => true | _ => false end.

Definition event_day (ev : pyval) : option Z :=
  match dict_get (u "day") ev with
  | Some (PyInt d) => Some d
  | _ => None
  end.

Definition line_kind (line : pystr) : option kind :=
  match json_loads line with
  | Some ev => event_kind ev
  | None => None
  end.

Definition status_event (content : pystr) : pyval :=
  PyDict [ (u "type", PyStr (u "status")); (u "content", PyStr content) ].

Definition control_event (action : pystr) (la lo : pyfloat) (zoom : Z) : pyval :=
  PyDict [ (u "type", PyStr (u "control"));
           (u "action", PyStr action);
           (u "data", PyDict [ (u "lat", PyFloat la); (u "lng", PyFloat lo);
                               (u "zoom", PyInt zoom) ]) ].

(** The dict forms of the classes, with the keys in the order in which
    [MOCK_TOKYO_TRIP] writes them. *)
Definition location_dict (l : Location) : pyval :=
  PyDict [ (u "name", PyStr (name l)); (u "lat", PyFloat (lat l));
           (u "lng", PyFloat (lng l)); (u "description", PyStr (description l)) ].

Definition day_plan_dict (p : DayPlan) : pyval :=
  PyDict [ (u "day", PyInt (day p)); (u "summary", PyStr (summary p));
           (u "locations", PyList (map location_dict (locations p))) ].

Definition data_event (p : DayPlan) (l : Location) : pyval :=
  PyDict [ (u "type", PyStr (u "data")); (u "day", PyInt (day p));
           (u "location", location_dict l); (u "summary", PyStr (summary p)) ].

(** The text of the status event that opens a day. *)
Definition day_announcement (p : DayPlan) : pystr :=
  u "正在規劃第 " ++ int_repr (day p) ++ u " 天：" ++ summary p.

(** ** The script of the specification

    Section 4.1 of the specification, as a list of actions over an
    itinerary of the data model: two status events each followed by a
    pause of 1, the [fly_to] control event followed by a pause of 1.5, then
    per day its status event and, per location, a pause of 0.8 and a data
    event, and last the completion status event. *)

(** The chunk that carries the event [ev]. *)
Definition line_of (ev : pyval) : pystr := json_dumps ev ++ NL.

Definition emit (ev : pyval) : action := Yield (line_of ev).

Definition script_prologue : list action :=
  [ emit (status_event (u "正在分析您的旅遊需求..."));
    Sleep (PyInt 1);
    emit (status_event (u "正在搜尋東京熱門景點..."));
    Sleep (PyInt 1);
    emit (control_event (u "fly_to") (float_lit 356895 (-4))
                        (float_lit 1396917 (-4)) 10);
    Sleep (PyFloat (float_lit 15 (-1))) ].

Definition point_script (p : DayPlan) (l : Location) : list action :=
  [Sleep (PyFloat (float_lit 8 (-1))); emit (data_event p l)].

Definition script_day (p : DayPlan) : list action :=
  emit (status_event (day_announcement p))
  :: flat_map (point_script p) (locations p).

Definition script_epilogue : list action :=
  [ emit (status_event (u "行程規劃完成！")) ].

Definition script (plans : list DayPlan) : list action :=
  script_prologue ++ flat_map script_day plans ++ script_epilogue.

(** The events of the script alone. *)
Definition prologue_events : list pyval :=
  [ status_event (u "正在分析您的旅遊需求...");
    status_event (u "正在搜尋東京熱門景點...");
    control_event (u "fly_to") (float_lit 356895 (-4))
                  (float_lit 1396917 (-4)) 10 ].

Definition day_events (p : DayPlan) : list pyval :=
  status_event (day_announcement p) :: map (data_event p) (locations p).

Definition final_event : pyval := status_event (u "行程規劃完成！").

Definition script_events (plans : list DayPlan) : list pyval :=
  prologue_events ++ flat_map day_events plans ++ [final_event].

(** The baked itinerary in the data model. *)
Definition mock_itinerary : list DayPlan :=
  [ {| day := 1;
       summary := u "抵達東京，探索淺草文化";
       locations := [
         {| name := u "成田機場"; lat := float_lit 357719 (-4);
            lng := float_lit 1403929 (-4); description := u "抵達日本" |};
         {| name := u "淺草寺"; lat := float_lit 357147 (-4);
            lng := float_lit 1397967 (-4);
            description := u "東京最古老的寺廟，雷門打卡" |};
         {| name := u "晴空塔"; lat := float_lit 357100 (-4);
            lng := float_lit 1398107 (-4); description := u "俯瞰東京夜景" |} ] |};
    {| day := 2;
       summary := u "潮流與購物的一天";
       locations := [
         {| name := u "澀谷十字路口"; lat := float_lit 356594 (-4);
            lng := float_lit 1397005 (-4);
            description := u "世界上最繁忙的十字路口" |};
         {| name := u "明治神宮"; lat := float_lit 356763 (-4);
            lng := float_lit 1396993 (-4); description := u "市中心的森林綠洲" |};
         {| name := u "新宿御苑"; lat := float_lit 356851 (-4);
            lng := float_lit 1397100 (-4); description := u "著名的賞櫻勝地" |} ] |} ].

(** The locations of an itinerary given as a value, day by day. *)
Definition plan_locations (day_plan : pyval) : list pyval :=
  match dict_get (u "locations") day_plan with
  | Some (PyList ls) => ls
  | _ => []
  end.

Definition itinerary_days (itinerary : pyval) : list pyval :=
  match itinerary with
  | PyList ps => ps
  | _ => []
  end.

Definition location_count (itinerary : pyval) : nat :=
  List.length (flat_map plan_locations (itinerary_days itinerary)).

(** ** Rebuilding the itinerary from the data events *)

(** The point [l] of day [d] joins the day's entry, or opens it. *)
Fixpoint add_point (d : Z) (s : pyval) (l : pyval)
  (acc : list (Z * pyval * list pyval)) : list (Z * pyval * list pyval) :=
  match acc with
  | [] => [(d, s, [l])]
  | (d', s', ls) :: rest =>
    if (d =? d')%Z then (d', s', ls ++ [l]) :: rest
    else (d', s', ls) :: add_point d s l rest
  end.

Definition collect_points (evs : list pyval) : list (Z * pyval * list pyval) :=
  fold_left
    (fun acc ev =>
       match event_kind ev, event_day ev,
             dict_get (u "summary") ev, dict_get (u "location") ev with
       | Some Data, Some d, Some s, Some l => add_point d s l acc
       | _, _, _, _ => acc
       end)
    evs [].

Definition reconstruct (evs : list pyval) : pyval :=
  PyList (map (fun e => match e with
                        | (d, s, ls) =>
                          PyDict [ (u "day", PyInt d); (u "summary", s);
                                   (u "locations", PyList ls) ]
                        end)
              (collect_points evs)).

(** The [location] fields of the data events of day [d], in order. *)
Definition locations_of_day (d : Z) (evs : list pyval) : list pyval :=
  flat_map (fun ev =>
              match event_kind ev, event_day ev, dict_get (u "location") ev with
              | Some Data, Some d', Some l => if (d =? d')%Z then [l] else []
              | _, _, _ => []
              end) evs.

(** ** Pauses *)

(** The number of time units a delay stands for. *)
Definition seconds (delay : pyval) : Q :=
  match delay with
  | PyInt n => inject_Z n
  | PyFloat x => (inject_Z (fmant x) * Qpower (10 # 1) (fexp x))%Q
  | _ => 0%Q
  end.

Definition total_delay (t : list action) : Q :=
  fold_right (fun d acc => (seconds d + acc)%Q) 0%Q (sleeps t).

(** What happens along a trace: the kind of each event, the length of each
    pause. *)
Inductive beat : Type :=
| Event (k : option kind)
| Pause (q : Q).

Definition beat_of (a : action) : beat :=
  match a with
  | Yield line => Event (line_kind line)
  | Sleep d => Pause (Qred (seconds d))
  end.

(** ** The generator without [current_locations] *)

Definition location_step_simplified (day_plan loc : pyval) : Gen unit :=
  sleep (PyFloat (float_lit 8 (-1))) ;;
  d <- getitem day_plan (u "day") ;;
  s <- getitem day_plan (u "summary") ;;
  let chunk := PyDict [ (u "type", PyStr (u "data"));
                        (u "day", d);
                        (u "location", loc);
                        (u "summary", s) ] in
  yield (json_dumps chunk ++ NL).

Definition day_step_simplified (day_plan : pyval) : Gen unit :=
  d <- getitem day_plan (u "day") ;;
  d_text <- format_value d ;;
  s <- getitem day_plan (u "summary") ;;
  s_text <- format_value s ;;
  yield (json_dumps (PyDict [
           (u "type", PyStr (u "status"));
           (u "content",
            PyStr (u "正在規劃第 " ++ d_text ++ u " 天：" ++ s_text)) ])
         ++ NL) ;;
  ls <- getitem day_plan (u "locations") ;;
  locs <- iter ls ;;
  for_in locs (location_step_simplified day_plan).

Definition ai_stream_generator_simplified_body (itinerary : pyval)
  (prompt : pystr) : Gen unit :=
  yield (json_dumps (PyDict [ (u "type", PyStr (u "status"));
                              (u "content", PyStr (u "正在分析您的旅遊需求...")) ])
         ++ NL) ;;
  sleep (PyInt 1) ;;
  yield (json_dumps (PyDict [ (u "type", PyStr (u "status"));
                              (u "content", PyStr (u "正在搜尋東京熱門景點...")) ])
         ++ NL) ;;
  sleep (PyInt 1) ;;
  yield (json_dumps (PyDict [
           (u "type", PyStr (u "control"));
           (u "action", PyStr (u "fly_to"));
           (u "data", PyDict [ (u "lat", PyFloat (float_lit 356895 (-4)));
                               (u "lng", PyFloat (float_lit 1396917 (-4)));
                               (u "zoom", PyInt 10) ]) ])
         ++ NL) ;;
  sleep (PyFloat (float_lit 15 (-1))) ;;
  day_plans <- iter itinerary ;;
  for_in day_plans day_step_simplified ;;
  yield (json_dumps (PyDict [ (u "type", PyStr (u "status"));
                              (u "content", PyStr (u "行程規劃完成！")) ])
         ++ NL).

Definition ai_stream_generator_simplified (prompt : pystr) : Gen unit :=
  ai_stream_generator_simplified_body MOCK_TOKYO_TRIP prompt.

(** ** Predicates on generator code and on its output *)

(** Two pieces of generator code side by side.  [related P m1 m2 Q]:
    started on frames related by [P], the two leave the same trace and end
    the same way (the same value, or the same exception), on frames related
    by [Q]. *)
Definition same_end {A} (Q : frame -> frame -> Prop) (r1 r2 : outcome A) : Prop :=
  match r1, r2 with
  | Done a g1, Done b g2 => a = b /\ Q g1 g2
  | Raised e1, Raised e2 => e1 = e2
  | _, _ => False
  end.

Definition related {A} (P : frame -> frame -> Prop) (m1 m2 : Gen A)
  (Q : frame -> frame -> Prop) : Prop :=
  forall f1 f2, P f1 f2 ->
    fst (m1 f1) = fst (m2 f2) /\ same_end Q (snd (m1 f1)) (snd (m2 f2)).

(** Code that does not touch the frame. *)
Definition frameless {A} (m : Gen A) : Prop :=
  forall f, m f = (fst (m f), snd (m f)) /\
    forall g, fst (m g) = fst (m f) /\
      match snd (m f) with
      | Done a f' => f' = f /\ snd (m g) = Done a g
      | Raised e => snd (m g) = Raised e
      end.

(** No condition on the two frames. *)
Definition any_frames : frame -> frame -> Prop := fun _ _ => True.

(** The frame of the original generator has [current_locations] bound. *)
Definition bound_left : frame -> frame -> Prop :=
  fun f1 _ => current_locations f1 <> None.

(** The characters from the space to the tilde. *)
Definition printableb (c : N) : bool := (32 <=? c) && (c <=? 126).

(** Printable ASCII only: no control character, nothing above ['~']. *)
Definition ascii_text (s : pystr) : Prop := forallb printableb s = true.

(** [every_yield P m]: on whatever frame [m] starts, and whether it
    completes or raises, each chunk it yields satisfies [P]. *)
Definition every_yield {A} (P : pystr -> Prop) (m : Gen A) : Prop :=
  forall f, Forall P (yields (fst (m f))).

(** Code that yields nothing. *)
Definition silent {A} (m : Gen A) : Prop := forall f, yields (fst (m f)) = [].

(** One NDJSON line: printable ASCII closed by a newline. *)
Definition ndjson_line (s : pystr) : Prop :=
  exists body, s = body ++ NL /\ ascii_text body.

(** The frame the loop over the days leaves behind. *)
Definition frame_after (plans : list DayPlan) (f : frame) : frame :=
  fold_left (fun _ p =>
               {| current_locations := Some (map location_dict (locations p)) |})
            plans f.

(** The [location] fields of the data events, in emission order. *)
Definition data_locations (evs : list pyval) : list pyval :=
  flat_map (fun ev =>
              match event_kind ev, dict_get (u "location") ev with
              | Some Data, Some l => [l]
              | _, _ => []
              end) evs.

(** The [day] fields of the data events, in emission order. *)
Definition data_days (evs : list pyval) : list Z :=
  flat_map (fun ev =>
              match event_kind ev, event_day ev with
              | Some Data, Some d => [d]
              | _, _ => []
              end) evs.

(** [ev] is the status event that opens the day [p]. *)
Definition announces (p : DayPlan) (ev : pyval) : bool :=
  match event_kind ev, dict_get (u "content") ev with
  | Some Status, Some (PyStr c) => pystr_eqb c (day_announcement p)
  | _, _ => false
  end.

(** The place of an event in the day structure: it opens a day, it is a
    point of a day, or it is neither. *)
Inductive mark : Type :=
| Opens (d : Z)
| Point (d : Z)
| Other.

Definition mark_of (plans : list DayPlan) (ev : pyval) : mark :=
  match event_kind ev, event_day ev with
  | Some Data, Some d => Point d
  | _, _ =>
    match find (fun p => announces p ev) plans with
    | Some p => Opens (day p)
    | None => Other
    end
  end.

(** Induction over values, through the lists nested in them. *)
Section PyvalInduction.
Variable P : pyval -> Prop.
Hypothesis HNone : P PyNone.
Hypothesis HBool : forall b, P (PyBool b).
Hypothesis HInt : forall n, P (PyInt n).
Hypothesis HFloat : forall x, P (PyFloat x).
Hypothesis HStr : forall s, P (PyStr s).
Hypothesis HList : forall xs, Forall P xs -> P (PyList xs).
Hypothesis HDict :
  forall items, Forall (fun kv => P (snd kv)) items -> P (PyDict items).

Fixpoint pyval_nested_ind (v : pyval) : P v :=
  match v with
  | PyNone => HNone
  | PyBool b => HBool b
  | PyInt n => HInt n
  | PyFloat x => HFloat x
  | PyStr s => HStr s
  | PyList xs =>
    HList xs
      ((fix go (l : list pyval) : Forall P l :=
          match l with
          | [] => Forall_nil P
          | x :: r => Forall_cons x (pyval_nested_ind x) (go r)
          end) xs)
  | PyDict items =>
    HDict items
      ((fix go (l : list (pystr * pyval)) : Forall (fun kv => P (snd kv)) l :=
          match l with
          | [] => Forall_nil _
          | (k, x) :: r =>
            Forall_cons (P := fun kv => P (snd kv)) (k, x)
                        (pyval_nested_ind x) (go r)
          end) items)
  end.
End PyvalInduction.

(** ** Itineraries other than the baked one *)

(** The values [iter] accepts. *)
Definition iterable (v : pyval) : bool :=
  match v with
  | PyList _ | PyStr _ | PyDict _ => true
  | _ => false
  end.

(** The chunk of the completion event. *)
Definition completion_chunk : pystr := line_of final_event.

Definition is_status (ev : pyval) : bool :=
  match event_kind ev with Some Status => true | _ => false end.

(** [m] sends the completion chunk exactly when it completes, and then as
    its last chunk and only once. *)
Definition completion_marks_success {A} (m : Gen A) : Prop :=
  forall f,
    match snd (m f) with
    | Done _ _ =>
      exists t, fst (m f) = t ++ [Yield completion_chunk]
                /\ ~ In completion_chunk (yields t)
    | Raised _ => ~ In completion_chunk (yields (fst (m f)))
    end.

(** The code points of well-formed text: the Unicode scalar values, that
    is every code point up to U+10FFFF except the surrogates. *)
Definition scalar_value (c : N) : bool :=
  (c <? 0xD800) || ((0xDFFF <? c) && (c <? 0x110000)).

Definition unicode_text (s : pystr) : Prop := forallb scalar_value s = true.

(** * Properties *)

(** ** The encoder and the reader on known values *)

Example utf8_decode_tokyo : u "東京" = [0x6771; 0x4EAC].
Proof. vm_compute. reflexivity. Qed.

Example float_repr_known :
  map float_repr [ float_lit 357100 (-4); float_lit 1 16; float_lit 1 15;
                   float_lit 1 (-4); float_lit 1 (-5); float_lit (-5) (-1) ]
  = map u [ "35.71"; "1e+16"; "1000000000000000.0"; "0.0001"; "1e-05";
            "-0.5" ]%string.
Proof. vm_compute. reflexivity. Qed.

Example json_dumps_known :
  json_dumps
    (PyDict [ (u "a", PyStr (u "東京 a" ++ [10; 127; 0x1F600]));
              (u "b", PyFloat (float_lit 357100 (-4)));
              (u "c", PyList [PyInt 1; PyDict [(u "k", PyNone)]]);
              (u "d", PyBool true) ])
  = q "{'a': '\u6771\u4eac a\n\u007f\ud83d\ude00', 'b': 35.71, 'c': [1, {'k': null}], 'd': true}".
Proof. vm_compute. reflexivity. Qed.

Example json_loads_known :
  json_loads (q " { 'a' : [1, 2.50, -3e2, null], 'b': 'x\ud83d\ude00\n', 'a': {} } ")
  = Some (PyDict [ (u "a", PyDict []);
                   (u "b", PyStr [120; 0x1F600; 10]) ])
  /\ map json_loads (map q ["01"; "[1,]"; "{'a':1,}"; "1 2"; "'\x'"]%string)
     = [None; None; None; None; None].
Proof. split; vm_compute; reflexivity. Qed.

Example first_data_line :
  nth 4 (generator_lines []) []
  = q "{'type': 'data', 'day': 1, 'location': {'name': '\u6210\u7530\u6a5f\u5834', 'lat': 35.7719, 'lng': 140.3929, 'description': '\u62b5\u9054\u65e5\u672c'}, 'summary': '\u62b5\u9054\u6771\u4eac\uff0c\u63a2\u7d22\u6dfa\u8349\u6587\u5316'}"
    ++ NL.
Proof. vm_compute. reflexivity. Qed.

(** ** Running generator code *)

Lemma bind_ret_l {A B} (a : A) (k : A -> Gen B) (f : frame) :
  bind (ret a) k f = k a f.
Proof. unfold bind, ret. destruct (k a f). reflexivity. Qed.

Lemma bind_raise {A B} (e : exn) (k : A -> Gen B) (f : frame) :
  bind (raise e) k f = ([], Raised e).
Proof. reflexivity. Qed.

Lemma bind_done {A B} (m : Gen A) (k : A -> Gen B) f t a f' :
  m f = (t, Done a f') ->
  bind m k f = (t ++ fst (k a f'), snd (k a f')).
Proof. intros H. unfold bind. rewrite H. destruct (k a f'). reflexivity. Qed.

Lemma bind_raised {A B} (m : Gen A) (k : A -> Gen B) f t e :
  m f = (t, Raised e) -> bind m k f = (t, Raised e).
Proof. intros H. unfold bind. rewrite H. reflexivity. Qed.

Lemma bind_yield {B} (c : pystr) (k : unit -> Gen B) (f : frame) :
  bind (yield c) k f = (Yield c :: fst (k tt f), snd (k tt f)).
Proof. apply (bind_done (yield c) k f [Yield c] tt f). reflexivity. Qed.

Lemma bind_sleep {B} (d : pyval) (k : unit -> Gen B) (f : frame) :
  bind (sleep d) k f = (Sleep d :: fst (k tt f), snd (k tt f)).
Proof. apply (bind_done (sleep d) k f [Sleep d] tt f). reflexivity. Qed.

Lemma yields_app (t1 t2 : list action) :
  yields (t1 ++ t2) = yields t1 ++ yields t2.
Proof.
  induction t1 as [|[c|d] t1 IH]; simpl; [reflexivity | f_equal; exact IH | exact IH].
Qed.

Lemma sleeps_app (t1 t2 : list action) :
  sleeps (t1 ++ t2) = sleeps t1 ++ sleeps t2.
Proof.
  induction t1 as [|[c|d] t1 IH]; simpl; [reflexivity | exact IH | f_equal; exact IH].
Qed.

(** ** Two generators side by side *)

Lemma related_bind {A B} P Q S (m1 m2 : Gen A) (k1 k2 : A -> Gen B) :
  related P m1 m2 Q ->
  (forall a, related Q (k1 a) (k2 a) S) ->
  related P (bind m1 k1) (bind m2 k2) S.
Proof.
  intros Hm Hk f1 f2 HP. destruct (Hm f1 f2 HP) as [Ht He].
  unfold bind.
  destruct (m1 f1) as [t1 [a1 g1|e1]], (m2 f2) as [t2 [a2 g2|e2]];
    simpl in Ht, He; subst; try contradiction.
  - destruct He as [-> HQ]. destruct (Hk a2 g1 g2 HQ) as [Ht' He'].
    destruct (k1 a2 g1), (k2 a2 g2); simpl in *. subst. split; [reflexivity | exact He'].
  - split; reflexivity.
Qed.

Lemma related_frameless {A} P (m : Gen A) :
  frameless m -> related P m m P.
Proof.
  intros Hm f1 f2 HP. destruct (Hm f1) as [_ H]. destruct (H f2) as [Ht He].
  split; [symmetry; exact Ht|].
  destruct (snd (m f1)) as [a f'|e].
  - destruct He as [-> ->]. simpl. split; [reflexivity | exact HP].
  - rewrite He. reflexivity.
Qed.

(** A step on the left that only changes the frame. *)
Lemma related_skip {A} P Q S (m : Gen unit) (k : unit -> Gen A) (m2 : Gen A) :
  (forall f1 f2, P f1 f2 -> exists g, m f1 = ([], Done tt g) /\ Q g f2) ->
  related Q (k tt) m2 S ->
  related P (bind m k) m2 S.
Proof.
  intros Hm Hk f1 f2 HP. destruct (Hm f1 f2 HP) as [g [E HQ]].
  rewrite (bind_done m k f1 [] tt g E). simpl. exact (Hk g f2 HQ).
Qed.

Lemma related_weaken {A} (P P' Q Q' : frame -> frame -> Prop) (m1 m2 : Gen A) :
  (forall f1 f2, P' f1 f2 -> P f1 f2) ->
  (forall f1 f2, Q f1 f2 -> Q' f1 f2) ->
  related P m1 m2 Q -> related P' m1 m2 Q'.
Proof.
  intros HP HQ H f1 f2 H'. destruct (H f1 f2 (HP _ _ H')) as [Ht He].
  split; [exact Ht|].
  destruct (snd (m1 f1)), (snd (m2 f2)); simpl in *; try tauto.
  destruct He; split; auto.
Qed.

Lemma related_for_in {A} P (xs : list A) (b1 b2 : A -> Gen unit) :
  (forall x, related P (b1 x) (b2 x) P) ->
  related P (for_in xs b1) (for_in xs b2) P.
Proof.
  intros Hb. induction xs as [|x xs IH]; simpl.
  - intros f1 f2 HP. simpl. auto.
  - apply related_bind with (Q := P); [apply Hb | intros _; exact IH].
Qed.

Lemma frameless_ret {A} (a : A) : frameless (ret a).
Proof. intros f. split; [reflexivity|]. intros g. simpl. auto. Qed.

Lemma frameless_raise {A} (e : exn) : frameless (@raise A e).
Proof. intros f. split; [reflexivity|]. intros g. simpl. auto. Qed.

Lemma frameless_yield (c : pystr) : frameless (yield c).
Proof. intros f. split; [reflexivity|]. intros g. simpl. auto. Qed.

Lemma frameless_sleep (d : pyval) : frameless (sleep d).
Proof. intros f. split; [reflexivity|]. intros g. simpl. auto. Qed.

Lemma frameless_getitem (v : pyval) (k : pystr) : frameless (getitem v k).
Proof.
  unfold getitem. destruct v; try apply frameless_raise.
  destruct (items_get k items); [apply frameless_ret | apply frameless_raise].
Qed.

Lemma frameless_iter (v : pyval) : frameless (iter v).
Proof.
  destruct v; simpl; solve [apply frameless_raise | apply frameless_ret].
Qed.

Lemma frameless_format_value (v : pyval) : frameless (format_value v).
Proof.
  destruct v as [ |[|]| | | | | ]; simpl;
    solve [apply frameless_raise | apply frameless_ret].
Qed.

Create HintDb gen_frameless.
#[local] Hint Resolve frameless_ret frameless_raise frameless_yield
  frameless_sleep frameless_getitem frameless_iter frameless_format_value
  : gen_frameless.

(** ** The accumulator [current_locations] *)

Ltac frameless_step R :=
  apply related_bind with (Q := R);
  [ apply related_frameless; auto with gen_frameless | intros ? ].

Lemma location_step_dead (day_plan loc : pyval) :
  related bound_left (location_step day_plan loc)
          (location_step_simplified day_plan loc) bound_left.
Proof.
  unfold location_step, location_step_simplified.
  frameless_step bound_left.
  apply related_skip with (Q := bound_left).
  - intros f1 f2 H. unfold bound_left in H. unfold append_current_locations.
    destruct (current_locations f1) as [ls|]; [|congruence].
    eexists. split; [reflexivity|]. unfold bound_left. simpl. discriminate.
  - frameless_step bound_left. frameless_step bound_left.
    apply related_frameless. auto with gen_frameless.
Qed.

Lemma day_step_dead (day_plan : pyval) :
  related any_frames (day_step day_plan) (day_step_simplified day_plan)
          any_frames.
Proof.
  unfold day_step, day_step_simplified.
  do 5 frameless_step any_frames.
  apply related_skip with (Q := bound_left).
  - intros f1 f2 _. eexists. split; [reflexivity|].
    unfold bound_left. simpl. discriminate.
  - apply related_weaken with (P := bound_left) (Q := bound_left);
      [ auto | intros; exact I | ].
    do 2 frameless_step bound_left.
    apply related_for_in. intros loc. apply location_step_dead.
Qed.

(** Whatever the itinerary, the generator and its simplification leave the
    same trace and end the same way. *)
Lemma body_dead (itinerary : pyval) (prompt : pystr) :
  related any_frames (ai_stream_generator_body itinerary prompt)
          (ai_stream_generator_simplified_body itinerary prompt) any_frames.
Proof.
  unfold ai_stream_generator_body, ai_stream_generator_simplified_body.
  do 7 frameless_step any_frames.
  apply related_bind with (Q := any_frames).
  - apply related_for_in. intros p. apply day_step_dead.
  - intros _. apply related_frameless. auto with gen_frameless.
Qed.

(** C9. The list [current_locations] is dead: for every prompt the
    generator yields the same lines, with the same pauses between them, as
    the generator from which the list and its [append] are removed; and the
    two end the same way. *)
Theorem current_locations_dead (prompt : pystr) :
  yields (emitted (ai_stream_generator prompt))
  = yields (emitted (ai_stream_generator_simplified prompt))
  /\ emitted (ai_stream_generator prompt)
     = emitted (ai_stream_generator_simplified prompt)
  /\ same_end any_frames (snd (run (ai_stream_generator prompt)))
                         (snd (run (ai_stream_generator_simplified prompt))).
Proof.
  destruct (body_dead MOCK_TOKYO_TRIP prompt
              {| current_locations := None |} {| current_locations := None |} I)
    as [Ht He].
  unfold emitted, run, ai_stream_generator, ai_stream_generator_simplified.
  rewrite Ht. split; [reflexivity | split; [reflexivity | exact He]].
Qed.

(** ** The text [json.dumps] produces *)

Lemma printableb_iff (c : N) : printableb c = true <-> 32 <= c <= 126.
Proof.
  unfold printableb. rewrite andb_true_iff, !N.leb_le. reflexivity.
Qed.

Lemma ascii_text_nil : ascii_text [].
Proof. reflexivity. Qed.

Lemma ascii_text_cons (c : N) (s : pystr) :
  32 <= c <= 126 -> ascii_text s -> ascii_text (c :: s).
Proof.
  intros Hc Hs. unfold ascii_text. simpl.
  apply andb_true_iff. split; [apply printableb_iff; exact Hc | exact Hs].
Qed.

Lemma ascii_text_app (a b : pystr) :
  ascii_text a -> ascii_text b -> ascii_text (a ++ b).
Proof.
  unfold ascii_text. intros Ha Hb. rewrite forallb_app, Ha, Hb. reflexivity.
Qed.

Lemma ascii_text_firstn (n : nat) (s : pystr) :
  ascii_text s -> ascii_text (firstn n s).
Proof.
  unfold ascii_text. revert n. induction s as [|c s IH]; intros [|n] H; simpl; auto.
  simpl in H. apply andb_true_iff in H. destruct H as [Hc Hs].
  rewrite Hc. simpl. apply IH. exact Hs.
Qed.

Lemma ascii_text_skipn (n : nat) (s : pystr) :
  ascii_text s -> ascii_text (skipn n s).
Proof.
  unfold ascii_text. revert n. induction s as [|c s IH]; intros [|n] H; simpl; auto.
  simpl in H. apply andb_true_iff in H. apply IH. tauto.
Qed.

Lemma ascii_text_zeros (n : Z) : ascii_text (zeros n).
Proof.
  unfold zeros. induction (Z.to_nat n) as [|k IH]; [reflexivity|].
  simpl. apply ascii_text_cons; [lia | exact IH].
Qed.

Lemma ascii_text_uint (d : Decimal.uint) :
  ascii_text (bytes_of_string (NilEmpty.string_of_uint d)).
Proof.
  unfold bytes_of_string.
  induction d; simpl; try reflexivity;
    (apply ascii_text_cons; [vm_compute; split; discriminate | assumption]).
Qed.

Lemma ascii_text_nilzero_uint (d : Decimal.uint) :
  ascii_text (bytes_of_string (NilZero.string_of_uint d)).
Proof.
  destruct d; try reflexivity; apply (ascii_text_uint _).
Qed.

Lemma ascii_text_digits_of (n : N) : ascii_text (digits_of n).
Proof. apply ascii_text_nilzero_uint. Qed.

Lemma ascii_text_int_repr (n : Z) : ascii_text (int_repr n).
Proof.
  unfold int_repr, NilZero.string_of_int.
  destruct (Z.to_int n) as [d|d].
  - apply ascii_text_nilzero_uint.
  - change (ascii_text (45 :: bytes_of_string (NilZero.string_of_uint d))).
    apply ascii_text_cons; [lia | apply ascii_text_nilzero_uint].
Qed.

Create HintDb ascii_text.
#[local] Hint Resolve ascii_text_nil ascii_text_app ascii_text_firstn
  ascii_text_skipn ascii_text_zeros ascii_text_digits_of ascii_text_int_repr
  : ascii_text.

(** Literals are settled by evaluation. *)
#[local] Hint Extern 1 (ascii_text (u _)) => reflexivity : ascii_text.

Lemma ascii_text_float_repr (x : pyfloat) : ascii_text (float_repr x).
Proof.
  unfold float_repr.
  repeat match goal with
         | |- context [if ?b then _ else _] => destruct b
         end; auto 20 with ascii_text.
Qed.

Lemma hex_digit_printable (n : N) : n < 16 -> 32 <= hex_digit n <= 126.
Proof.
  intros H. unfold hex_digit. destruct (n <? 10) eqn:E.
  - apply N.ltb_lt in E. lia.
  - apply N.ltb_ge in E. lia.
Qed.

Lemma ascii_text_hex4 (n : N) : ascii_text (hex4 n).
Proof.
  unfold hex4.
  repeat (apply ascii_text_cons;
          [apply hex_digit_printable; apply N.mod_lt; discriminate|]).
  apply ascii_text_nil.
Qed.

#[local] Hint Resolve ascii_text_float_repr ascii_text_hex4 : ascii_text.

Lemma ascii_text_escape_char (c : N) : ascii_text (escape_char c).
Proof.
  unfold escape_char.
  repeat match goal with
         | |- context [if ?b then _ else _] => destruct b eqn:?
         end; auto 10 with ascii_text; try reflexivity.
  apply ascii_text_cons; [|apply ascii_text_nil].
  match goal with
  | H : (_ && _)%bool = true |- _ =>
    apply andb_true_iff in H; rewrite !N.leb_le in H; exact H
  end.
Qed.

Lemma ascii_text_encode (s : pystr) : ascii_text (encode_basestring_ascii s).
Proof.
  unfold encode_basestring_ascii.
  apply ascii_text_app; [reflexivity|].
  apply ascii_text_app; [|reflexivity].
  induction s as [|c s IH]; simpl;
    [apply ascii_text_nil | apply ascii_text_app; [apply ascii_text_escape_char | exact IH]].
Qed.

Lemma ascii_text_join (sep : pystr) (parts : list pystr) :
  ascii_text sep -> Forall ascii_text parts -> ascii_text (join sep parts).
Proof.
  intros Hsep H. induction H as [|p ps Hp Hps IH]; [reflexivity|].
  simpl. destruct ps as [|p' ps']; [exact Hp|].
  apply ascii_text_app; [exact Hp|]. apply ascii_text_app; [exact Hsep | exact IH].
Qed.

#[local] Hint Resolve ascii_text_encode ascii_text_join : ascii_text.

(** With its default settings [json.dumps] writes printable ASCII only. *)
Lemma json_dumps_ascii (v : pyval) : ascii_text (json_dumps v).
Proof.
  induction v as [ |b|n|x|s|xs IH|items IH] using pyval_nested_ind.
  - reflexivity.
  - destruct b; reflexivity.
  - apply ascii_text_int_repr.
  - apply ascii_text_float_repr.
  - apply ascii_text_encode.
  - change (ascii_text (u "[" ++ join (u ", ") (map json_dumps xs) ++ u "]")).
    apply ascii_text_app; [reflexivity|]. apply ascii_text_app; [|reflexivity].
    apply ascii_text_join; [reflexivity|].
    apply Forall_map. exact IH.
  - change (ascii_text
              (u "{" ++
               join (u ", ")
                 (map (fun kv => encode_basestring_ascii (fst kv) ++ u ": "
                                 ++ json_dumps (snd kv)) items)
               ++ u "}")).
    apply ascii_text_app; [reflexivity|]. apply ascii_text_app; [|reflexivity].
    apply ascii_text_join; [reflexivity|].
    apply Forall_map. eapply Forall_impl; [|exact IH].
    intros kv Hx.
    apply ascii_text_app; [apply ascii_text_encode|].
    apply ascii_text_app; [reflexivity | exact Hx].
Qed.

Lemma ascii_text_no_newline (s : pystr) : ascii_text s -> ~ In 10 s.
Proof.
  unfold ascii_text. intros H Hin.
  rewrite forallb_forall in H. specialize (H 10 Hin). discriminate H.
Qed.

(** ** What every yielded chunk satisfies *)

Lemma every_yield_bind {A B} P (m : Gen A) (k : A -> Gen B) :
  every_yield P m -> (forall a, every_yield P (k a)) ->
  every_yield P (bind m k).
Proof.
  intros Hm Hk f. specialize (Hm f). unfold bind.
  destruct (m f) as [t [a f'|e]]; simpl in *; [|exact Hm].
  specialize (Hk a f'). destruct (k a f') as [t' r]. simpl in *.
  rewrite yields_app. apply Forall_app. split; assumption.
Qed.

Lemma every_yield_for_in {A} P (xs : list A) (body : A -> Gen unit) :
  (forall x, every_yield P (body x)) -> every_yield P (for_in xs body).
Proof.
  intros Hb. induction xs as [|x xs IH]; simpl.
  - intros f. constructor.
  - apply every_yield_bind; [apply Hb | intros _; exact IH].
Qed.

Lemma every_yield_yield P (c : pystr) : P c -> every_yield P (yield c).
Proof. intros H f. simpl. constructor; [exact H | constructor]. Qed.

Lemma every_yield_silent {A} P (m : Gen A) : silent m -> every_yield P m.
Proof. intros H f. rewrite H. constructor. Qed.

Lemma silent_ret {A} (a : A) : silent (ret a).
Proof. intros f. reflexivity. Qed.

Lemma silent_raise {A} (e : exn) : silent (@raise A e).
Proof. intros f. reflexivity. Qed.

Lemma silent_sleep (d : pyval) : silent (sleep d).
Proof. intros f. reflexivity. Qed.

Lemma silent_getitem (v : pyval) (k : pystr) : silent (getitem v k).
Proof.
  intros f. unfold getitem. destruct v; try reflexivity.
  destruct (items_get k items); reflexivity.
Qed.

Lemma silent_iter (v : pyval) : silent (iter v).
Proof. intros f. destruct v; reflexivity. Qed.

Lemma silent_format_value (v : pyval) : silent (format_value v).
Proof. intros f. destruct v as [ |[|]| | | | | ]; reflexivity. Qed.

Lemma silent_new_current_locations : silent new_current_locations.
Proof. intros f. reflexivity. Qed.

Lemma silent_append_current_locations (loc : pyval) :
  silent (append_current_locations loc).
Proof.
  intros f. unfold append_current_locations.
  destruct (current_locations f); reflexivity.
Qed.

Create HintDb gen_yield.
#[local] Hint Resolve silent_ret silent_raise silent_sleep silent_getitem
  silent_iter silent_format_value silent_new_current_locations
  silent_append_current_locations : gen_yield.
#[local] Hint Resolve every_yield_silent every_yield_yield every_yield_for_in
  : gen_yield.

Lemma dumps_newline_is_line (v : pyval) : ndjson_line (json_dumps v ++ NL).
Proof. exists (json_dumps v). split; [reflexivity | apply json_dumps_ascii]. Qed.

#[local] Hint Resolve dumps_newline_is_line : gen_yield.

Ltac yield_steps :=
  repeat (apply every_yield_bind; [auto with gen_yield | intros ?]);
  auto with gen_yield.

Lemma location_step_lines (day_plan loc : pyval) :
  every_yield ndjson_line (location_step day_plan loc).
Proof. unfold location_step. yield_steps. Qed.

Lemma day_step_lines (day_plan : pyval) :
  every_yield ndjson_line (day_step day_plan).
Proof.
  unfold day_step. yield_steps.
  apply every_yield_for_in. intros loc. apply location_step_lines.
Qed.

(** Whatever the itinerary, every chunk is one line. *)
Lemma body_lines (itinerary : pyval) (prompt : pystr) :
  every_yield ndjson_line (ai_stream_generator_body itinerary prompt).
Proof.
  unfold ai_stream_generator_body. yield_steps.
  apply every_yield_for_in. intros p. apply day_step_lines.
Qed.

(** A text made of lines splits back into them. *)
Lemma split_lines_aux_body (body rest cur : pystr) :
  ~ In 10 body ->
  split_lines_aux (body ++ NL ++ rest) cur
  = (List.rev cur ++ body ++ NL) :: split_lines_aux rest [].
Proof.
  revert cur. induction body as [|c body IH]; intros cur Hnl.
  - simpl. reflexivity.
  - simpl. destruct (c =? 10) eqn:E.
    + apply N.eqb_eq in E. exfalso. apply Hnl. left. exact E.
    + rewrite IH; [|intros H; apply Hnl; right; exact H].
      simpl. rewrite <- app_assoc. reflexivity.
Qed.

Lemma split_lines_concat (ls : list pystr) :
  Forall ndjson_line ls -> split_lines (List.concat ls) = ls.
Proof.
  unfold split_lines. induction 1 as [|l ls [body [-> Hb]] _ IH]; [reflexivity|].
  simpl. rewrite <- app_assoc.
  rewrite split_lines_aux_body by (apply ascii_text_no_newline; exact Hb).
  rewrite IH. reflexivity.
Qed.

(** ** The generator follows the script *)

Lemma bind_pure {A B} (m : Gen A) (k : A -> Gen B) f a f' :
  m f = ([], Done a f') -> bind m k f = k a f'.
Proof.
  intros H. rewrite (bind_done m k f [] a f' H). simpl.
  destruct (k a f'). reflexivity.
Qed.

Lemma getitem_day (p : DayPlan) (f : frame) :
  getitem (day_plan_dict p) (u "day") f = ([], Done (PyInt (day p)) f).
Proof. reflexivity. Qed.

Lemma getitem_summary (p : DayPlan) (f : frame) :
  getitem (day_plan_dict p) (u "summary") f = ([], Done (PyStr (summary p)) f).
Proof. reflexivity. Qed.

Lemma getitem_locations (p : DayPlan) (f : frame) :
  getitem (day_plan_dict p) (u "locations") f
  = ([], Done (PyList (map location_dict (locations p))) f).
Proof. reflexivity. Qed.

Lemma location_step_run (p : DayPlan) (l : Location) (cur : list pyval) :
  location_step (day_plan_dict p) (location_dict l)
                {| current_locations := Some cur |}
  = (point_script p l,
     Done tt {| current_locations := Some (cur ++ [location_dict l]) |}).
Proof.
  unfold location_step. rewrite bind_sleep.
  rewrite (bind_pure (append_current_locations _) _ _ tt
             {| current_locations := Some (cur ++ [location_dict l]) |})
    by reflexivity.
  rewrite (bind_pure _ _ _ _ _ (getitem_day p _)).
  rewrite (bind_pure _ _ _ _ _ (getitem_summary p _)).
  reflexivity.
Qed.

Lemma location_loop_run (p : DayPlan) (ls : list Location) (cur : list pyval) :
  for_in (map location_dict ls) (location_step (day_plan_dict p))
         {| current_locations := Some cur |}
  = (flat_map (point_script p) ls,
     Done tt {| current_locations := Some (cur ++ map location_dict ls) |}).
Proof.
  revert cur. induction ls as [|l ls IH]; intros cur.
  - simpl. rewrite app_nil_r. reflexivity.
  - change (for_in (map location_dict (l :: ls)) (location_step (day_plan_dict p)))
      with (bind (location_step (day_plan_dict p) (location_dict l))
                 (fun _ => for_in (map location_dict ls)
                                  (location_step (day_plan_dict p)))).
    rewrite (bind_done _ _ _ _ _ _ (location_step_run p l cur)).
    rewrite IH. simpl. rewrite <- app_assoc. reflexivity.
Qed.

Lemma script_day_eq (p : DayPlan) :
  script_day p
  = emit (status_event (day_announcement p)) :: flat_map (point_script p) (locations p).
Proof. reflexivity. Qed.

Lemma day_step_run (p : DayPlan) (f : frame) :
  day_step (day_plan_dict p) f
  = (script_day p,
     Done tt {| current_locations := Some (map location_dict (locations p)) |}).
Proof.
  unfold day_step.
  rewrite (bind_pure _ _ _ _ _ (getitem_day p _)).
  rewrite (bind_pure (format_value (PyInt (day p))) _ f (int_repr (day p)) f)
    by reflexivity.
  rewrite (bind_pure _ _ _ _ _ (getitem_summary p _)).
  rewrite (bind_pure (format_value (PyStr (summary p))) _ f (summary p) f)
    by reflexivity.
  rewrite bind_yield.
  rewrite (bind_pure new_current_locations _ f tt {| current_locations := Some [] |})
    by reflexivity.
  rewrite (bind_pure _ _ _ _ _ (getitem_locations p _)).
  rewrite (bind_pure (iter _) _ _ (map location_dict (locations p))
                     {| current_locations := Some [] |}) by reflexivity.
  rewrite location_loop_run. rewrite script_day_eq. reflexivity.
Qed.

Lemma day_loop_run (plans : list DayPlan) (f : frame) :
  for_in (map day_plan_dict plans) day_step f
  = (flat_map script_day plans, Done tt (frame_after plans f)).
Proof.
  revert f. induction plans as [|p plans IH]; intros f; [reflexivity|].
  change (for_in (map day_plan_dict (p :: plans)) day_step)
    with (bind (day_step (day_plan_dict p))
               (fun _ => for_in (map day_plan_dict plans) day_step)).
  rewrite (bind_done _ _ _ _ _ _ (day_step_run p f)).
  rewrite IH. reflexivity.
Qed.

(** On an itinerary of the data model the generator completes, and its
    trace is the script of the specification. *)
Lemma body_follows_script (plans : list DayPlan) (prompt : pystr) (f : frame) :
  ai_stream_generator_body (PyList (map day_plan_dict plans)) prompt f
  = (script plans, Done tt (frame_after plans f)).
Proof.
  unfold ai_stream_generator_body.
  rewrite bind_yield, bind_sleep, bind_yield, bind_sleep, bind_yield, bind_sleep.
  rewrite (bind_pure (iter _) _ f (map day_plan_dict plans) f) by reflexivity.
  rewrite (bind_done _ _ _ _ _ _ (day_loop_run plans f)).
  reflexivity.
Qed.

Lemma mock_itinerary_dict :
  MOCK_TOKYO_TRIP = PyList (map day_plan_dict mock_itinerary).
Proof. vm_compute. reflexivity. Qed.

Lemma generator_follows_script (prompt : pystr) :
  run (ai_stream_generator prompt)
  = (script mock_itinerary,
     Done tt (frame_after mock_itinerary {| current_locations := None |})).
Proof.
  unfold run, ai_stream_generator. rewrite mock_itinerary_dict.
  apply body_follows_script.
Qed.

(** ** The events of the stream *)

Lemma script_day_yields (p : DayPlan) :
  yields (script_day p) = map line_of (day_events p).
Proof.
  unfold script_day, day_events. simpl. f_equal.
  induction (locations p) as [|l ls IH]; [reflexivity|].
  simpl. f_equal. exact IH.
Qed.

Lemma script_yields (plans : list DayPlan) :
  yields (script plans) = map line_of (script_events plans).
Proof.
  unfold script, script_events. rewrite !yields_app, !map_app.
  f_equal. f_equal.
  induction plans as [|p plans IH]; [reflexivity|].
  change (flat_map script_day (p :: plans))
    with (script_day p ++ flat_map script_day plans).
  change (flat_map day_events (p :: plans))
    with (day_events p ++ flat_map day_events plans).
  rewrite yields_app, map_app, IH, script_day_yields. reflexivity.
Qed.

(** Every line of the stream reads back as the event it was made from. *)
Lemma mock_events_read_back :
  read_stream (map line_of (script_events mock_itinerary))
  = Some (script_events mock_itinerary).
Proof. vm_compute. reflexivity. Qed.

Lemma generator_lines_script (prompt : pystr) :
  generator_lines prompt = map line_of (script_events mock_itinerary).
Proof.
  unfold generator_lines, emitted. rewrite generator_follows_script.
  apply script_yields.
Qed.

Lemma stream_events_script (prompt : pystr) :
  stream_events prompt = Some (script_events mock_itinerary).
Proof.
  unfold stream_events. rewrite generator_lines_script.
  exact mock_events_read_back.
Qed.

Lemma generator_lines_are_lines (prompt : pystr) :
  Forall ndjson_line (generator_lines prompt).
Proof. apply (body_lines MOCK_TOKYO_TRIP prompt). Qed.

Lemma response_lines (prompt : pystr) :
  split_lines (response_body (plan_trip prompt)) = generator_lines prompt.
Proof.
  change (response_body (plan_trip prompt))
    with (List.concat (generator_lines prompt)).
  apply split_lines_concat. apply generator_lines_are_lines.
Qed.

(** C1. For the prompt "Tokyo 3 days" the body of the response to
    POST /api/plan has exactly 12 lines: two status events, one control
    event, the status event of day 1 and its three data events, the status
    event of day 2 and its three data events, one final status event.  The
    data events are six, the number of locations of the baked itinerary
    (3 + 3). *)
Theorem tokyo_three_days :
  let r := plan_trip (u "Tokyo 3 days") in
  let ls := split_lines (response_body r) in
  media_type r = u "application/x-ndjson"
  /\ List.length ls = 12%nat
  /\ map line_kind ls
     = [ Some Status; Some Status; Some Control;
         Some Status; Some Data; Some Data; Some Data;
         Some Status; Some Data; Some Data; Some Data;
         Some Status ]
  /\ (exists evs,
        read_stream ls = Some evs
        /\ map (mark_of mock_itinerary) evs
           = [ Other; Other; Other;
               Opens 1; Point 1; Point 1; Point 1;
               Opens 2; Point 2; Point 2; Point 2;
               Other ]
        /\ List.length (filter is_data evs) = location_count MOCK_TOKYO_TRIP)
  /\ location_count MOCK_TOKYO_TRIP = (3 + 3)%nat.
Proof.
  cbv zeta. rewrite response_lines, generator_lines_script.
  split; [vm_compute; reflexivity|].
  split; [vm_compute; reflexivity|].
  split; [vm_compute; reflexivity|].
  split; [|vm_compute; reflexivity].
  exists (script_events mock_itinerary).
  split; [exact mock_events_read_back|].
  split; vm_compute; reflexivity.
Qed.

(** C2. The emitted sequence does not depend on the prompt: for any two
    prompts, the empty one included, the generator leaves the same trace,
    line for line and pause for pause, and the response bodies are equal;
    no prompt makes the generator raise. *)
Theorem prompt_independence (p1 p2 : pystr) :
  generator_lines p1 = generator_lines p2
  /\ run (ai_stream_generator p1) = run (ai_stream_generator p2)
  /\ response_body (plan_trip p1) = response_body (plan_trip p2)
  /\ generator_lines [] = generator_lines p1
  /\ exists f, snd (run (ai_stream_generator p1)) = Done tt f.
Proof.
  assert (H : forall p q, run (ai_stream_generator p) = run (ai_stream_generator q)).
  { intros p q. rewrite !generator_follows_script. reflexivity. }
  assert (L : forall p q, generator_lines p = generator_lines q).
  { intros p q. unfold generator_lines, emitted. rewrite (H p q). reflexivity. }
  split; [apply L|]. split; [apply H|].
  split.
  { change (List.concat (generator_lines p1) = List.concat (generator_lines p2)).
    rewrite (L p1 p2). reflexivity. }
  split; [apply L|].
  rewrite generator_follows_script. eexists. reflexivity.
Qed.

(** C3. Every line the generator yields parses as a JSON object of its
    own, and the [location] objects of the data events, taken in emission
    order and grouped by their [day], are the locations of
    [MOCK_TOKYO_TRIP] in the same order; together with the [day] and
    [summary] fields they rebuild [MOCK_TOKYO_TRIP] itself. *)
Theorem stream_round_trip (prompt : pystr) :
  Forall (fun line => exists items, json_loads line = Some (PyDict items))
         (generator_lines prompt)
  /\ exists evs,
       stream_events prompt = Some evs
       /\ Forall (fun day_plan =>
                    exists d, dict_get (u "day") day_plan = Some (PyInt d)
                              /\ locations_of_day d evs = plan_locations day_plan)
                 (itinerary_days MOCK_TOKYO_TRIP)
       /\ data_locations evs
          = flat_map plan_locations (itinerary_days MOCK_TOKYO_TRIP)
       /\ reconstruct evs = MOCK_TOKYO_TRIP.
Proof.
  split.
  - rewrite generator_lines_script.
    assert (H : forallb (fun line => match json_loads line with
                                     | Some (PyDict _) => true
                                     | _ => false
                                     end)
                        (map line_of (script_events mock_itinerary)) = true)
      by (vm_compute; reflexivity).
    rewrite forallb_forall in H. apply Forall_forall. intros line Hin.
    specialize (H line Hin).
    destruct (json_loads line) as [[ | | | | | |items]|]; try discriminate H.
    exists items. reflexivity.
  - exists (script_events mock_itinerary).
    split; [apply stream_events_script|].
    split.
    + change (itinerary_days MOCK_TOKYO_TRIP)
        with (match MOCK_TOKYO_TRIP with PyList ps => ps | _ => [] end).
      unfold MOCK_TOKYO_TRIP.
      repeat constructor.
      * exists 1%Z. split; vm_compute; reflexivity.
      * exists 2%Z. split; vm_compute; reflexivity.
    + split; vm_compute; reflexivity.
Qed.

(** C4. For every prompt the first two events are status events and the
    third is a control event with action "fly_to"; its payload has exactly
    the fields lat, lng and zoom, the coordinates 35.6895, 139.6917 of the
    destination and the zoom level 10. *)
Theorem opening_events (prompt : pystr) :
  exists e1 e2 e3 rest,
    stream_events prompt = Some (e1 :: e2 :: e3 :: rest)
    /\ event_kind e1 = Some Status
    /\ event_kind e2 = Some Status
    /\ event_kind e3 = Some Control
    /\ dict_keys e3 = [u "type"; u "action"; u "data"]
    /\ dict_get (u "action") e3 = Some (PyStr (u "fly_to"))
    /\ exists payload,
         dict_get (u "data") e3 = Some payload
         /\ dict_keys payload = [u "lat"; u "lng"; u "zoom"]
         /\ dict_get (u "lat") payload = Some (PyFloat (float_lit 356895 (-4)))
         /\ dict_get (u "lng") payload = Some (PyFloat (float_lit 1396917 (-4)))
         /\ dict_get (u "zoom") payload = Some (PyInt 10).
Proof.
  exists (status_event (u "正在分析您的旅遊需求...")),
         (status_event (u "正在搜尋東京熱門景點...")),
         (control_event (u "fly_to") (float_lit 356895 (-4))
                        (float_lit 1396917 (-4)) 10),
         (flat_map day_events mock_itinerary ++ [final_event]).
  split; [apply stream_events_script|].
  do 5 (split; [vm_compute; reflexivity|]).
  eexists. split; [vm_compute; reflexivity|].
  repeat split; vm_compute; reflexivity.
Qed.

(** In a script, a data event is the event of one location of one day. *)
Lemma script_data_events (plans : list DayPlan) (ev : pyval) :
  In ev (script_events plans) -> is_data ev = true ->
  exists p l, In p plans /\ In l (locations p) /\ ev = data_event p l.
Proof.
  unfold script_events. rewrite !in_app_iff. intros [H|[H|H]] Hd.
  - exfalso. simpl in H.
    destruct H as [<-|[<-|[<-|[]]]]; vm_compute in Hd; discriminate Hd.
  - apply in_flat_map in H. destruct H as [p [Hp H]].
    destruct H as [<-|H]; [exfalso; vm_compute in Hd; discriminate Hd|].
    apply in_map_iff in H. destruct H as [l [<- Hl]].
    exists p, l. auto.
  - exfalso. destruct H as [<-|[]]. vm_compute in Hd. discriminate Hd.
Qed.

(** C6. Every data event has exactly the fields type, day, location and
    summary; its location is one location of the itinerary (an object with
    exactly the fields name, lat, lng and description, not a list), and its
    summary is the summary of the day the location belongs to.  The
    location a step of the loop sends is the one it has just appended to
    [current_locations], not the list. *)
Theorem data_event_shape (prompt : pystr) :
  MOCK_TOKYO_TRIP = PyList (map day_plan_dict mock_itinerary)
  /\ (exists evs,
    stream_events prompt = Some evs
    /\ Forall
         (fun ev =>
            is_data ev = true ->
            dict_keys ev = [u "type"; u "day"; u "location"; u "summary"]
            /\ exists p l,
                 In p mock_itinerary /\ In l (locations p)
                 /\ event_day ev = Some (day p)
                 /\ dict_get (u "summary") ev = Some (PyStr (summary p))
                 /\ dict_get (u "location") ev = Some (location_dict l)
                 /\ location_dict l
                    = PyDict [ (u "name", PyStr (name l));
                               (u "lat", PyFloat (lat l));
                               (u "lng", PyFloat (lng l));
                               (u "description", PyStr (description l)) ]
                 /\ dict_keys (location_dict l)
                    = [u "name"; u "lat"; u "lng"; u "description"])
         evs)
  /\ forall p l cur,
       location_step (day_plan_dict p) (location_dict l)
                     {| current_locations := Some cur |}
       = ([ Sleep (PyFloat (float_lit 8 (-1)));
            Yield (line_of (data_event p l)) ],
          Done tt {| current_locations := Some (cur ++ [location_dict l]) |}).
Proof.
  split; [exact mock_itinerary_dict|].
  split; [|intros p l cur; apply location_step_run].
  exists (script_events mock_itinerary).
  split; [apply stream_events_script|].
  apply Forall_forall. intros ev Hin Hd.
  destruct (script_data_events _ _ Hin Hd) as [p [l [Hp [Hl ->]]]].
  split; [reflexivity|].
  exists p, l. repeat split; assumption || reflexivity.
Qed.

(** C5. The events between the prologue and the final status event are the
    days' blocks in order: each day's status event, then that day's data
    events.  A data event of a day comes after that day's status event,
    with only data events of that day between them, and before the status
    event of any later day.  The days carried by the data events start at
    1, never decrease, and are those of the itinerary, which increase
    strictly; within a day the locations come in the itinerary's order. *)
Theorem day_blocks_in_order (prompt : pystr) :
  MOCK_TOKYO_TRIP = PyList (map day_plan_dict mock_itinerary)
  /\ exists evs,
    stream_events prompt = Some evs
    /\ evs = prologue_events ++ flat_map day_events mock_itinerary ++ [final_event]
    /\ (let marks := map (mark_of mock_itinerary) evs in
        marks = [ Other; Other; Other;
                  Opens 1; Point 1; Point 1; Point 1;
                  Opens 2; Point 2; Point 2; Point 2;
                  Other ]
        /\ forall i d, nth_error marks i = Some (Point d) ->
             exists j, (j < i)%nat
               /\ nth_error marks j = Some (Opens d)
               /\ (forall k, (j < k < i)%nat -> nth_error marks k = Some (Point d))
               /\ (forall k d', nth_error marks k = Some (Opens d') ->
                                (d < d')%Z -> (i < k)%nat))
    /\ data_days evs = [1; 1; 1; 2; 2; 2]%Z
    /\ hd_error (data_days evs) = Some 1%Z
    /\ Sorted Z.le (data_days evs)
    /\ map day mock_itinerary = [1; 2]%Z
    /\ StronglySorted Z.lt (map day mock_itinerary)
    /\ Forall (fun p => locations_of_day (day p) evs
                        = map location_dict (locations p))
              mock_itinerary.
Proof.
  split; [exact mock_itinerary_dict|].
  exists (script_events mock_itinerary).
  split; [apply stream_events_script|].
  split; [reflexivity|].
  assert (M : map (mark_of mock_itinerary) (script_events mock_itinerary)
              = [ Other; Other; Other;
                  Opens 1; Point 1; Point 1; Point 1;
                  Opens 2; Point 2; Point 2; Point 2;
                  Other ]) by (vm_compute; reflexivity).
  assert (D : data_days (script_events mock_itinerary) = [1; 1; 1; 2; 2; 2]%Z)
    by (vm_compute; reflexivity).
  split.
  { cbv zeta. rewrite M. split; [reflexivity|].
    intros i d Hi.
    assert (C : ((i = 4 \/ i = 5 \/ i = 6) /\ d = 1%Z
                 \/ (i = 8 \/ i = 9 \/ i = 10) /\ d = 2%Z)%nat).
    { do 12 (destruct i as [|i];
             [ simpl in Hi;
               first [discriminate Hi | injection Hi as <-; lia] |]).
      simpl in Hi. destruct i; discriminate Hi. }
    assert (O : forall k d', nth_error
                  [ Other; Other; Other;
                    Opens 1; Point 1; Point 1; Point 1;
                    Opens 2; Point 2; Point 2; Point 2;
                    Other ] k = Some (Opens d') ->
                (k = 3 /\ d' = 1%Z \/ k = 7 /\ d' = 2%Z)%nat).
    { intros k d' Hk.
      do 12 (destruct k as [|k];
             [ simpl in Hk;
               first [discriminate Hk | injection Hk as <-; lia] |]).
      simpl in Hk. destruct k; discriminate Hk. }
    destruct C as [[Hi' ->]|[Hi' ->]]; [exists 3%nat | exists 7%nat].
    all: split; [lia|]; split; [reflexivity|]; split.
    all: try (intros k d' Hk Hlt; destruct (O k d' Hk) as [[-> ->]|[-> ->]]; lia).
    all: intros k Hk.
    all: assert (Ck : (k = 4 \/ k = 5 \/ k = 8 \/ k = 9)%nat) by lia.
    all: destruct Ck as [-> | [-> | [-> | ->]]]; first [reflexivity | lia]. }
  rewrite D.
  split; [reflexivity|]. split; [reflexivity|].
  split; [repeat constructor; lia|].
  split; [reflexivity|].
  split; [repeat constructor; lia|].
  repeat constructor; vm_compute; reflexivity.
Qed.

Lemma total_delay_app (t1 t2 : list action) :
  (total_delay (t1 ++ t2) == total_delay t1 + total_delay t2)%Q.
Proof.
  unfold total_delay. rewrite sleeps_app.
  induction (sleeps t1) as [|d ds IH]; simpl; [ring|]. rewrite IH. ring.
Qed.

Lemma total_delay_day (p : DayPlan) :
  (total_delay (script_day p)
   == (4 # 5) * inject_Z (Z.of_nat (List.length (locations p))))%Q.
Proof.
  unfold script_day.
  change (total_delay (emit (status_event (day_announcement p))
                       :: flat_map (point_script p) (locations p)))
    with (total_delay (flat_map (point_script p) (locations p))).
  generalize (locations p). intros ls0.
  induction ls0 as [|l ls IH]; [reflexivity|].
  change (flat_map (point_script p) (l :: ls))
    with (point_script p l ++ flat_map (point_script p) ls).
  rewrite total_delay_app, IH.
  change (total_delay (point_script p l)) with ((8 # 10) + 0)%Q.
  change (List.length (l :: ls)) with (S (List.length ls)).
  rewrite Nat2Z.inj_succ. unfold Z.succ. rewrite inject_Z_plus. ring.
Qed.

(** The pauses of the script add up to 2 + 1.5 + 0.8 per location. *)
Lemma total_delay_script (plans : list DayPlan) :
  (total_delay (script plans)
   == 2 + (3 # 2)
      + (4 # 5) * inject_Z (Z.of_nat (List.length (flat_map locations plans))))%Q.
Proof.
  unfold script. rewrite !total_delay_app.
  change (total_delay script_prologue) with (1 + (1 + ((15 # 10) + 0)))%Q.
  change (total_delay script_epilogue) with 0%Q.
  assert (H : (total_delay (flat_map script_day plans)
               == (4 # 5) * inject_Z (Z.of_nat (List.length (flat_map locations plans))))%Q).
  { induction plans as [|p plans IH]; [reflexivity|].
    change (flat_map script_day (p :: plans))
      with (script_day p ++ flat_map script_day plans).
    change (flat_map locations (p :: plans))
      with (locations p ++ flat_map locations plans).
    rewrite total_delay_app, IH, total_delay_day, length_app, Nat2Z.inj_add,
      inject_Z_plus. ring. }
  rewrite H. ring.
Qed.

(** C8. The pauses of one run are: 1 after each of the first two status
    events, 1.5 after the control event and 0.8 before every data event,
    the first of a day included, and no other; they add up to
    2 + 1.5 + 0.8 * 6 = 8.3. *)
Theorem scripted_pauses (prompt : pystr) :
  map beat_of (emitted (ai_stream_generator prompt))
  = [ Event (Some Status); Pause 1;
      Event (Some Status); Pause 1;
      Event (Some Control); Pause (3 # 2);
      Event (Some Status);
      Pause (4 # 5); Event (Some Data);
      Pause (4 # 5); Event (Some Data);
      Pause (4 # 5); Event (Some Data);
      Event (Some Status);
      Pause (4 # 5); Event (Some Data);
      Pause (4 # 5); Event (Some Data);
      Pause (4 # 5); Event (Some Data);
      Event (Some Status) ]
  /\ sleeps (emitted (ai_stream_generator prompt))
     = [ PyInt 1; PyInt 1; PyFloat (float_lit 15 (-1));
         PyFloat (float_lit 8 (-1)); PyFloat (float_lit 8 (-1));
         PyFloat (float_lit 8 (-1)); PyFloat (float_lit 8 (-1));
         PyFloat (float_lit 8 (-1)); PyFloat (float_lit 8 (-1)) ]
  /\ (total_delay (emitted (ai_stream_generator prompt))
      == 2 + (3 # 2)
         + (4 # 5) * inject_Z (Z.of_nat (location_count MOCK_TOKYO_TRIP)))%Q
  /\ location_count MOCK_TOKYO_TRIP = 6%nat
  /\ (total_delay (emitted (ai_stream_generator prompt)) == 83 # 10)%Q.
Proof.
  unfold emitted. rewrite generator_follows_script.
  change (fst (script mock_itinerary, Done tt (frame_after mock_itinerary
                 {| current_locations := None |})))
    with (script mock_itinerary).
  split; [vm_compute; reflexivity|].
  split; [vm_compute; reflexivity|].
  assert (N : location_count MOCK_TOKYO_TRIP = 6%nat) by (vm_compute; reflexivity).
  assert (L : List.length (flat_map locations mock_itinerary) = 6%nat)
    by (vm_compute; reflexivity).
  split; [rewrite total_delay_script, N, L; reflexivity|].
  split; [exact N|].
  rewrite total_delay_script, L. reflexivity.
Qed.

(** C7. For every prompt the generator ends by yielding the status event
    that announces completion: the trace is the days' events followed by
    that one chunk, nothing comes after it, and the generator returns.  All
    the data events, one per location, are before it. *)
Theorem completion_is_last (prompt : pystr) :
  exists t f,
    run (ai_stream_generator prompt)
    = (t ++ [Yield (line_of final_event)], Done tt f)
    /\ json_loads (line_of final_event)
       = Some (status_event (u "行程規劃完成！"))
    /\ event_kind final_event = Some Status
    /\ last (generator_lines prompt) [] = line_of final_event
    /\ List.length (filter (fun line => match line_kind line with
                                        | Some Data => true
                                        | _ => false
                                        end) (yields t))
       = location_count MOCK_TOKYO_TRIP
    /\ line_kind (line_of final_event) = Some Status.
Proof.
  exists (script_prologue ++ flat_map script_day mock_itinerary),
         (frame_after mock_itinerary {| current_locations := None |}).
  split.
  { rewrite generator_follows_script. unfold script.
    rewrite app_assoc. reflexivity. }
  split; [vm_compute; reflexivity|].
  split; [vm_compute; reflexivity|].
  split.
  { rewrite generator_lines_script. unfold script_events.
    rewrite !map_app, app_assoc. apply last_last. }
  split; vm_compute; reflexivity.
Qed.

Lemma read_stream_each (lines : list pystr) (evs : list pyval) :
  read_stream lines = Some evs ->
  Forall (fun l => exists ev, json_loads l = Some ev) lines.
Proof.
  revert evs. induction lines as [|l ls IH]; intros evs H; [constructor|].
  simpl in H. destruct (json_loads l) as [v|] eqn:E; [|discriminate H].
  destruct (read_stream ls) as [vs|] eqn:E'; [|discriminate H].
  constructor; [exists v; exact E | exact (IH vs eq_refl)].
Qed.

(** C10. Every chunk the generator yields is printable ASCII followed by
    one newline: it ends with a newline and holds no other.  It is one line
    of the body, and that line holds one JSON value. *)
Theorem one_line_per_chunk (prompt : pystr) :
  Forall (fun chunk =>
            (exists body, chunk = body ++ [10]
                          /\ ~ In 10 body /\ ascii_text body)
            /\ split_lines chunk = [chunk]
            /\ exists ev, json_loads chunk = Some ev)
         (generator_lines prompt).
Proof.
  apply Forall_forall. intros chunk Hin.
  pose proof (generator_lines_are_lines prompt) as HL.
  rewrite Forall_forall in HL. specialize (HL chunk Hin).
  split; [|split].
  - destruct HL as [body [-> Hb]]. exists body.
    split; [reflexivity|]. split; [apply ascii_text_no_newline|]; exact Hb.
  - rewrite <- (app_nil_r chunk) at 1.
    apply (split_lines_concat [chunk]). constructor; [exact HL | constructor].
  - pose proof (read_stream_each _ _ (stream_events_script prompt)) as HS.
    rewrite Forall_forall in HS. exact (HS chunk Hin).
Qed.

(** * Beyond the baked itinerary

    The generator reads the module global [MOCK_TOKYO_TRIP] when it runs;
    the properties below hold for whatever value that global has, taken as
    the parameter of [ai_stream_generator_body]. *)

Lemma bind_assoc {A B C} (m : Gen A) (k : A -> Gen B) (h : B -> Gen C)
  (f : frame) :
  bind (bind m k) h f = bind m (fun a => bind (k a) h) f.
Proof.
  unfold bind. destruct (m f) as [t [a f'|e]]; [|reflexivity].
  destruct (k a f') as [t1 [b f1|e1]]; [|reflexivity].
  destruct (h b f1) as [t2 r]. rewrite app_assoc. reflexivity.
Qed.

Lemma bind_ext {A B} (m : Gen A) (k k' : A -> Gen B) (f : frame) :
  (forall a g, k a g = k' a g) -> bind m k f = bind m k' f.
Proof.
  intros H. unfold bind. destruct (m f) as [t [a f'|e]]; [|reflexivity].
  rewrite H. reflexivity.
Qed.

Lemma for_in_app {A} (xs ys : list A) (body : A -> Gen unit) (f : frame) :
  for_in (xs ++ ys) body f
  = bind (for_in xs body) (fun _ => for_in ys body) f.
Proof.
  revert f. induction xs as [|x xs IH]; intros f.
  - exact (eq_sym (bind_ret_l tt (fun _ => for_in ys body) f)).
  - simpl. rewrite bind_assoc. apply bind_ext. intros _ g. apply IH.
Qed.

Lemma length_flat_map_day_events (plans : list DayPlan) :
  List.length (flat_map day_events plans)
  = (List.length plans + List.length (flat_map locations plans))%nat.
Proof.
  induction plans as [|p plans IH]; [reflexivity|].
  change (flat_map day_events (p :: plans))
    with (day_events p ++ flat_map day_events plans).
  change (flat_map locations (p :: plans))
    with (locations p ++ flat_map locations plans).
  rewrite !length_app, IH. unfold day_events. simpl. rewrite length_map. lia.
Qed.

Lemma is_data_data_event (p : DayPlan) (l : Location) :
  is_data (data_event p l) = true.
Proof. vm_compute. reflexivity. Qed.

Lemma is_data_status_event (c : pystr) : is_data (status_event c) = false.
Proof. vm_compute. reflexivity. Qed.

Lemma is_status_data_event (p : DayPlan) (l : Location) :
  is_status (data_event p l) = false.
Proof. vm_compute. reflexivity. Qed.

Lemma is_status_status_event (c : pystr) : is_status (status_event c) = true.
Proof. vm_compute. reflexivity. Qed.

Lemma filter_data_day_events (p : DayPlan) :
  filter is_data (day_events p) = map (data_event p) (locations p).
Proof.
  unfold day_events. cbn [filter]. rewrite is_data_status_event.
  induction (locations p) as [|l ls IH]; [reflexivity|].
  cbn [filter map]. rewrite is_data_data_event, IH. reflexivity.
Qed.

Lemma filter_status_day_events (p : DayPlan) :
  filter is_status (day_events p) = [status_event (day_announcement p)].
Proof.
  unfold day_events. cbn [filter]. rewrite is_status_status_event. f_equal.
  induction (locations p) as [|l ls IH]; [reflexivity|].
  cbn [filter map]. rewrite is_status_data_event. exact IH.
Qed.

Lemma filter_flat_map {A B} (g : B -> bool) (h : A -> list B) (xs : list A) :
  filter g (flat_map h xs) = flat_map (fun x => filter g (h x)) xs.
Proof.
  induction xs as [|x xs IH]; [reflexivity|].
  simpl. rewrite filter_app, IH. reflexivity.
Qed.




Lemma body_after_prologue (itinerary : pyval) (prompt : pystr) (f : frame) :
  ai_stream_generator_body itinerary prompt f
  = (script_prologue
       ++ fst (bind (iter itinerary)
                    (fun day_plans =>
                       bind (for_in day_plans day_step)
                            (fun _ => yield completion_chunk)) f),
     snd (bind (iter itinerary)
               (fun day_plans =>
                  bind (for_in day_plans day_step)
                       (fun _ => yield completion_chunk)) f)).
Proof.
  unfold ai_stream_generator_body.
  rewrite bind_yield, bind_sleep, bind_yield, bind_sleep, bind_yield, bind_sleep.
  reflexivity.
Qed.

(** X4. Whatever the itinerary is, a well-formed list or not, the run
    starts with the three opening events and their pauses of 1, 1 and 1.5:
    the itinerary is not looked at before they are out. *)
Theorem prologue_comes_first (itinerary : pyval) (prompt : pystr) :
  exists t,
    emitted (ai_stream_generator_body itinerary prompt) = script_prologue ++ t
    /\ firstn 6 (emitted (ai_stream_generator_body itinerary prompt))
       = script_prologue.
Proof.
  unfold emitted, run. rewrite body_after_prologue.
  eexists. split; reflexivity.
Qed.

(** X5. When the itinerary is not iterable (None, a boolean, a number), the
    generator raises TypeError right after the opening events: no day is
    announced and the completion event is not sent. *)
Theorem not_iterable_raises (itinerary : pyval) (prompt : pystr) :
  iterable itinerary = false ->
  run (ai_stream_generator_body itinerary prompt)
  = (script_prologue, Raised TypeError).
Proof.
  intros H. unfold run. rewrite body_after_prologue.
  destruct itinerary; try discriminate H; reflexivity.
Qed.

Lemma not_iterable_raises_witness :
  iterable PyNone = false
  /\ run (ai_stream_generator_body PyNone [])
     = (script_prologue, Raised TypeError).
Proof.
  split; [reflexivity | apply (not_iterable_raises PyNone []); reflexivity].
Defined.

Lemma body_on_list (days : list pyval) (prompt : pystr) (f : frame) :
  ai_stream_generator_body (PyList days) prompt f
  = (script_prologue
       ++ fst (bind (for_in days day_step) (fun _ => yield completion_chunk) f),
     snd (bind (for_in days day_step) (fun _ => yield completion_chunk) f)).
Proof.
  rewrite body_after_prologue.
  rewrite (bind_pure (iter (PyList days)) _ f days f) by reflexivity.
  reflexivity.
Qed.

(** A day that raises ends the loop: the days before it are emitted in
    full, no day after it is started. *)
Lemma day_loop_raises (plans : list DayPlan) (bad : pyval) (rest : list pyval)
  (f : frame) (t : list action) (e : exn) :
  (forall g, day_step bad g = (t, Raised e)) ->
  for_in (map day_plan_dict plans ++ bad :: rest) day_step f
  = (flat_map script_day plans ++ t, Raised e).
Proof.
  intros Hbad. rewrite for_in_app.
  rewrite (bind_done _ _ _ _ _ _ (day_loop_run plans f)).
  change (for_in (bad :: rest) day_step)
    with (bind (day_step bad) (fun _ => for_in rest day_step)).
  rewrite (bind_raised _ _ _ _ _ (Hbad _)). reflexivity.
Qed.









Lemma completion_bind {A B} (m : Gen A) (k : A -> Gen B) :
  every_yield (fun c => c <> completion_chunk) m ->
  (forall a, completion_marks_success (k a)) ->
  completion_marks_success (bind m k).
Proof.
  intros Hm Hk f. specialize (Hm f). rewrite Forall_forall in Hm.
  unfold bind. destruct (m f) as [t [a f'|e]]; cbn [fst snd] in *.
  - specialize (Hk a f'). destruct (k a f') as [t' [b g|e']]; cbn [fst snd] in *.
    + destruct Hk as [t0 [-> Hn]]. exists (t ++ t0).
      split; [apply app_assoc|].
      rewrite yields_app, in_app_iff. intros [H|H]; [|exact (Hn H)].
      exact (Hm _ H eq_refl).
    + rewrite yields_app, in_app_iff. intros [H|H]; [|exact (Hk H)].
      exact (Hm _ H eq_refl).
  - intros H. exact (Hm _ H eq_refl).
Qed.

Lemma completion_yield : completion_marks_success (yield completion_chunk).
Proof.
  intros f. cbn [yield fst snd]. exists []. split; [reflexivity | intros []].
Qed.

Lemma data_chunk_not_completion (d loc s : pyval) :
  json_dumps (PyDict [ (u "type", PyStr (u "data")); (u "day", d);
                       (u "location", loc); (u "summary", s) ]) ++ NL
  <> completion_chunk.
Proof.
  intros H. apply (f_equal (firstn 12)) in H. vm_compute in H. discriminate H.
Qed.

Lemma day_status_chunk_not_completion (d_text s_text : pystr) :
  json_dumps (PyDict [ (u "type", PyStr (u "status"));
                       (u "content",
                        PyStr (u "正在規劃第 " ++ d_text ++ u " 天：" ++ s_text)) ])
    ++ NL
  <> completion_chunk.
Proof.
  intros H. apply (f_equal (firstn 37)) in H. vm_compute in H. discriminate H.
Qed.

Ltac not_completion_steps :=
  repeat (apply every_yield_bind;
          [ first [ apply every_yield_silent; auto with gen_yield
                  | apply every_yield_yield ]
          | intros ? ]).

Lemma location_step_not_completion (day_plan loc : pyval) :
  every_yield (fun c => c <> completion_chunk) (location_step day_plan loc).
Proof.
  unfold location_step. not_completion_steps.
  apply every_yield_yield. apply data_chunk_not_completion.
Qed.

Lemma day_step_not_completion (day_plan : pyval) :
  every_yield (fun c => c <> completion_chunk) (day_step day_plan).
Proof.
  unfold day_step.
  do 4 (apply every_yield_bind;
        [apply every_yield_silent; auto with gen_yield | intros ?]).
  apply every_yield_bind;
    [apply every_yield_yield; apply day_status_chunk_not_completion | intros _].
  do 3 (apply every_yield_bind;
        [apply every_yield_silent; auto with gen_yield | intros ?]).
  apply every_yield_for_in. intros loc. apply location_step_not_completion.
Qed.


(** ** Text through the encoder and the reader *)

(** The four hexadecimal digits of an escape read back as the number. *)
Lemma hex_value_hex_digit (n : N) : n < 16 -> hex_value (hex_digit n) = Some n.
Proof.
  intros H. destruct n as [|p]; [reflexivity|].
  do 4 (destruct p as [p|p|]; try reflexivity); lia.
Qed.

Lemma hex4_value_hex4 (n : N) :
  n < 65536 ->
  hex4_value (hex_digit (N.shiftr n 12 mod 16)) (hex_digit (N.shiftr n 8 mod 16))
             (hex_digit (N.shiftr n 4 mod 16)) (hex_digit (n mod 16))
  = Some n.
Proof.
  intros H. unfold hex4_value.
  rewrite !hex_value_hex_digit by (apply N.mod_lt; discriminate).
  f_equal. rewrite !N.shiftr_div_pow2.
  change (2 ^ 12) with 4096. change (2 ^ 8) with 256. change (2 ^ 4) with 16.
  zify. Z.to_euclidean_division_equations. lia.
Qed.

(** Bits above and below position 10 do not meet. *)
Lemma lor_high_low (a b : N) :
  N.lor (a * 2 ^ 10) (b mod 2 ^ 10) = a * 2 ^ 10 + b mod 2 ^ 10.
Proof.
  assert (H : N.land (a * 2 ^ 10) (b mod 2 ^ 10) = 0);
    [|rewrite (N.add_nocarry_lxor _ _ H); symmetry; apply N.lxor_lor; exact H].
  apply N.bits_inj_0. intros i. rewrite N.land_spec.
  destruct (N.lt_ge_cases i 10) as [Hi|Hi].
  - rewrite N.mul_pow2_bits_low by exact Hi. reflexivity.
  - rewrite N.mod_pow2_bits_high by exact Hi. apply andb_false_r.
Qed.

(** One step of [scan_string] on each form an escaped character takes. *)
#[local] Arguments hex4_value : simpl never.
#[local] Arguments is_high_surrogate : simpl never.
#[local] Arguments is_low_surrogate : simpl never.
#[local] Arguments unescape : simpl never.
#[local] Arguments N.shiftl : simpl never.
#[local] Arguments N.lor : simpl never.
#[local] Arguments N.add : simpl never.
#[local] Arguments N.sub : simpl never.

Lemma scan_plain (c : N) (r acc : pystr) :
  (c =? 34) = false -> (c =? 92) = false -> (c <? 32) = false ->
  scan_string (c :: r) acc = scan_string r (c :: acc).
Proof. intros H1 H2 H3. simpl. rewrite H1, H2, H3. reflexivity. Qed.

Lemma scan_short (e x : N) (r acc : pystr) :
  (e =? 117) = false -> unescape e = Some x ->
  scan_string (92 :: e :: r) acc = scan_string r (x :: acc).
Proof. intros H1 H2. simpl. rewrite H1, H2. reflexivity. Qed.

Lemma scan_u (h1 h2 h3 h4 n : N) (r acc : pystr) :
  hex4_value h1 h2 h3 h4 = Some n -> is_high_surrogate n = false ->
  scan_string (92 :: 117 :: h1 :: h2 :: h3 :: h4 :: r) acc
  = scan_string r (n :: acc).
Proof.
  intros H1 H2. simpl. rewrite H1, H2.
  destruct r as [|b [|x [|l1 [|l2 [|l3 [|l4 r3]]]]]]; try reflexivity.
  destruct (hex4_value l1 l2 l3 l4); reflexivity.
Qed.

Lemma scan_pair (h1 h2 h3 h4 l1 l2 l3 l4 n n2 : N) (r acc : pystr) :
  hex4_value h1 h2 h3 h4 = Some n -> is_high_surrogate n = true ->
  hex4_value l1 l2 l3 l4 = Some n2 -> is_low_surrogate n2 = true ->
  scan_string (92 :: 117 :: h1 :: h2 :: h3 :: h4
               :: 92 :: 117 :: l1 :: l2 :: l3 :: l4 :: r) acc
  = scan_string r (0x10000 + N.lor (N.shiftl (n - 0xD800) 10) (n2 - 0xDC00) :: acc).
Proof. intros H1 H2 H3 H4. simpl. rewrite H1, H3, H2, H4. reflexivity. Qed.

(** The surrogate pair of the character [0x10000 + n]. *)
Lemma surrogate_arith (n : N) :
  n < 1048576 ->
  54 * 1024 + (n / 1024) mod 1024 < 65536
  /\ 55 * 1024 + n mod 1024 < 65536
  /\ 55296 <= 54 * 1024 + (n / 1024) mod 1024 <= 56319
  /\ 56320 <= 55 * 1024 + n mod 1024 <= 57343
  /\ 54 * 1024 + (n / 1024) mod 1024 - 55296 = (n / 1024) mod 1024
  /\ 55 * 1024 + n mod 1024 - 56320 = n mod 1024
  /\ (n / 1024) mod 1024 * 1024 + n mod 1024 = n.
Proof.
  intros H. zify. Z.to_euclidean_division_equations. lia.
Qed.

(** What [escape_char] writes for a scalar value, [scan_string] reads as
    that value. *)
Lemma scan_string_escape (c : N) (tail acc : pystr) :
  scalar_value c = true ->
  scan_string (escape_char c ++ tail) acc = scan_string tail (c :: acc).
Proof.
  intros Hc. unfold escape_char.
  destruct (c =? 34) eqn:E34; [apply N.eqb_eq in E34; subst c; reflexivity|].
  destruct (c =? 92) eqn:E92; [apply N.eqb_eq in E92; subst c; reflexivity|].
  destruct (c =? 10) eqn:E10; [apply N.eqb_eq in E10; subst c; reflexivity|].
  destruct (c =? 13) eqn:E13; [apply N.eqb_eq in E13; subst c; reflexivity|].
  destruct (c =? 9) eqn:E9; [apply N.eqb_eq in E9; subst c; reflexivity|].
  destruct (c =? 12) eqn:E12; [apply N.eqb_eq in E12; subst c; reflexivity|].
  destruct (c =? 8) eqn:E8; [apply N.eqb_eq in E8; subst c; reflexivity|].
  destruct ((32 <=? c) && (c <=? 126)) eqn:Ep.
  { apply andb_true_iff in Ep. destruct Ep as [Ep _]. apply N.leb_le in Ep.
    apply scan_plain; [exact E34 | exact E92 | apply N.ltb_ge; exact Ep]. }
  clear E34 E92 E10 E13 E9 E12 E8 Ep.
  assert (Hv : c < 55296 \/ 57343 < c < 1114112).
  { unfold scalar_value in Hc. apply orb_true_iff in Hc.
    destruct Hc as [Hc|Hc]; [left; apply N.ltb_lt; exact Hc|].
    apply andb_true_iff in Hc. destruct Hc as [H1 H2].
    apply N.ltb_lt in H1, H2. right. split; assumption. }
  clear Hc.
  destruct (c <? 0x10000) eqn:Eb.
  - apply N.ltb_lt in Eb.
    change (u "\u" ++ hex4 c) with (92 :: 117 :: hex4 c). unfold hex4.
    cbn [app].
    apply scan_u; [apply hex4_value_hex4; exact Eb|].
    unfold is_high_surrogate. apply andb_false_iff.
    destruct Hv as [Hv|Hv]; [left; apply N.leb_gt; exact Hv|].
    right. apply N.leb_gt. lia.
  - apply N.ltb_ge in Eb.
    assert (Hn : c - 65536 < 1048576) by lia.
    assert (Hc : c = 65536 + (c - 65536)) by lia.
    cbv zeta. revert Hn Hc. generalize (c - 65536). intros n Hn Hc.
    clear Hv Eb.
    change 0x3FF with (N.ones 10). rewrite !N.land_ones.
    rewrite N.shiftr_div_pow2.
    change 0xD800 with (54 * 2 ^ 10). change 0xDC00 with (55 * 2 ^ 10).
    rewrite !lor_high_low.
    change (2 ^ 10) with 1024.
    destruct (surrogate_arith n Hn) as (A1 & A2 & A3 & A4 & A5 & A6 & A7).
    change (u "\u" ++ hex4 (54 * 1024 + (n / 1024) mod 1024)
              ++ u "\u" ++ hex4 (55 * 1024 + n mod 1024))
      with (92 :: 117 :: hex4 (54 * 1024 + (n / 1024) mod 1024)
              ++ 92 :: 117 :: hex4 (55 * 1024 + n mod 1024)).
    unfold hex4. cbn [app].
    rewrite (scan_pair _ _ _ _ _ _ _ _ (54 * 1024 + (n / 1024) mod 1024)
                       (55 * 1024 + n mod 1024)).
    + f_equal. f_equal.
      change 0xD800 with 55296. change 0xDC00 with 56320.
      rewrite A5, A6, N.shiftl_mul_pow2.
      assert (L := lor_high_low ((n / 1024) mod 1024) n).
      change (2 ^ 10) with 1024 in *. rewrite L, A7. symmetry. exact Hc.
    + apply hex4_value_hex4. exact A1.
    + unfold is_high_surrogate. apply andb_true_iff.
      split; apply N.leb_le; [exact (proj1 A3) | exact (proj2 A3)].
    + apply hex4_value_hex4. exact A2.
    + unfold is_low_surrogate. apply andb_true_iff.
      split; apply N.leb_le; [exact (proj1 A4) | exact (proj2 A4)].
Qed.

(** An encoded string, up to its closing quote, reads back as the string. *)
Lemma scan_string_encoded (s rest acc : pystr) :
  unicode_text s ->
  scan_string (flat_map escape_char s ++ 34 :: rest) acc
  = Some (List.rev acc ++ s, rest).
Proof.
  unfold unicode_text. revert acc. induction s as [|c s IH]; intros acc H.
  - simpl. rewrite app_nil_r. reflexivity.
  - simpl in H. apply andb_true_iff in H. destruct H as [Hc Hs].
    change (flat_map escape_char (c :: s))
      with (escape_char c ++ flat_map escape_char s).
    rewrite <- app_assoc, scan_string_escape by exact Hc.
    rewrite IH by exact Hs. simpl. rewrite <- app_assoc. reflexivity.
Qed.

(** An object of two members whose values are strings. *)
Lemma read_two_strings (fuel : nat) (k1 v1 k2 v2 t1 t2 t3 t4 rest : pystr) :
  scan_string t1 [] = Some (k1, 58 :: 32 :: 34 :: t2) ->
  scan_string t2 [] = Some (v1, 44 :: 32 :: 34 :: t3) ->
  scan_string t3 [] = Some (k2, 58 :: 32 :: 34 :: t4) ->
  scan_string t4 [] = Some (v2, 125 :: rest) ->
  scan_value (S (S (S (S fuel)))) (123 :: 34 :: t1)
  = Some (PyDict (items_set k2 (PyStr v2) (items_set k1 (PyStr v1) [])), rest).
Proof.
  intros H1 H2 H3 H4.
  cbn [scan_value skip_ws is_ws N.eqb Pos.eqb orb scan_members].
  rewrite H1.
  cbn [scan_value skip_ws is_ws N.eqb Pos.eqb orb scan_members].
  rewrite H2.
  cbn [scan_value skip_ws is_ws N.eqb Pos.eqb orb scan_members].
  rewrite H3.
  cbn [scan_value skip_ws is_ws N.eqb Pos.eqb orb scan_members].
  rewrite H4.
  cbn [scan_value skip_ws is_ws N.eqb Pos.eqb orb scan_members].
  reflexivity.
Qed.

Lemma status_line_text (c : pystr) :
  line_of (status_event c)
  = 123 :: 34 :: flat_map escape_char (u "type")
    ++ 34 :: 58 :: 32 :: 34 :: flat_map escape_char (u "status")
    ++ 34 :: 44 :: 32 :: 34 :: flat_map escape_char (u "content")
    ++ 34 :: 58 :: 32 :: 34 :: flat_map escape_char c
    ++ 34 :: 125 :: NL.
Proof.
  unfold line_of, status_event.
  change (json_dumps (PyDict [(u "type", PyStr (u "status")); (u "content", PyStr c)]))
    with ([123] ++ (encode_basestring_ascii (u "type") ++ [58; 32]
                    ++ encode_basestring_ascii (u "status"))
              ++ [44; 32]
              ++ (encode_basestring_ascii (u "content") ++ [58; 32]
                  ++ encode_basestring_ascii c)
              ++ [125]).
  unfold encode_basestring_ascii.
  repeat (rewrite <- app_assoc; cbn [app]). reflexivity.
Qed.

Lemma status_line_reads_back (c : pystr) :
  unicode_text c ->
  json_loads (line_of (status_event c)) = Some (status_event c).
Proof.
  intros H. rewrite status_line_text. unfold json_loads.
  cbn [List.length]. rewrite length_app.
  set (L := List.length (flat_map escape_char (u "type"))).
  vm_compute in L. subst L. cbn [Nat.add].
  set (t4 := flat_map escape_char c ++ 34 :: 125 :: NL).
  set (t3 := flat_map escape_char (u "content") ++ 34 :: 58 :: 32 :: 34 :: t4).
  set (t2 := flat_map escape_char (u "status") ++ 34 :: 44 :: 32 :: 34 :: t3).
  set (t1 := flat_map escape_char (u "type") ++ 34 :: 58 :: 32 :: 34 :: t2).
  rewrite (read_two_strings _ (u "type") (u "status") (u "content") c
             t1 t2 t3 t4 NL).
  - reflexivity.
  - apply (scan_string_encoded (u "type") _ []). reflexivity.
  - apply (scan_string_encoded (u "status") _ []). reflexivity.
  - apply (scan_string_encoded (u "content") _ []). reflexivity.
  - apply (scan_string_encoded c _ []). exact H.
Qed.

Lemma unicode_text_app (a b : pystr) :
  unicode_text a -> unicode_text b -> unicode_text (a ++ b).
Proof.
  unfold unicode_text. intros Ha Hb. rewrite forallb_app, Ha, Hb. reflexivity.
Qed.

Lemma ascii_text_unicode (s : pystr) : ascii_text s -> unicode_text s.
Proof.
  unfold ascii_text, unicode_text. intros H.
  rewrite forallb_forall in *. intros c Hc. specialize (H c Hc).
  apply printableb_iff in H. unfold scalar_value.
  apply orb_true_iff. left. apply N.ltb_lt. lia.
Qed.

Lemma day_announcement_unicode (p : DayPlan) :
  unicode_text (summary p) -> unicode_text (day_announcement p).
Proof.
  intros H. unfold day_announcement.
  apply unicode_text_app; [reflexivity|].
  apply unicode_text_app; [apply ascii_text_unicode, ascii_text_int_repr|].
  apply unicode_text_app; [reflexivity | exact H].
Qed.

(** Two surrogate code points in a row do not survive: they are escaped
    like the one character above the BMP whose pair they are, and read
    back as that character. *)
Example surrogates_merge :
  json_loads (line_of (status_event [0xD83D; 0xDE00]))
  = Some (status_event [0x1F600]).
Proof. vm_compute. reflexivity. Qed.



